(** * Airport ground operations: gates, runways, flights

    A shallow embedding of [airport.py]: the resource entities ([Gate],
    [Runway]), the [Flight] state machine, the [Schedule] registry, the
    [SimpleScheduler] pass and the [Airport] orchestration, followed by
    the properties of these operations.

    Modelling conventions.
    - A Python [int] is a [Z]; an [Optional[int]] is an [option Z].
    - A method that mutates [self] and may raise is a computation
      [M S A = S -> Result A * S]: it returns the outcome together with
      the state of the object as the caller sees it afterwards.  A raised
      exception does not roll anything back, so whatever was written
      before the [raise] is still in the returned state.
    - The lists held by an [Airport] are lists of objects.  The position
      of an object in its list stands for the identity of the object, and
      a method that returns an object returns that position.  Each list
      cell is one object (no object is appended twice).
    - A [dict] whose listing order is observable is an association list
      in insertion order. *)

From Stdlib Require Import ZArith QArith.
From stdpp Require Import base option list strings pretty.

Local Open Scope Z_scope.

(** ** Enumerations (section 2 of the source) *)

Inductive FlightStatus :=
  PLANNED | BOARDING | READY | TAXI | AIRBORNE | LANDED | CANCELLED.

Inductive RunwayStatus := FREE | IN_USE | MAINTENANCE.

Inductive EngineType := JET | TURBOPROP | PISTON.

#[global] Instance FlightStatus_eq_dec : EqDecision FlightStatus.
Proof. solve_decision. Defined.

#[global] Instance RunwayStatus_eq_dec : EqDecision RunwayStatus.
Proof. solve_decision. Defined.

(** [status.name] *)
Definition FlightStatus_name (s : FlightStatus) : string :=
  match s with
  | PLANNED => "PLANNED"
  | BOARDING => "BOARDING"
  | READY => "READY"
  | TAXI => "TAXI"
  | AIRBORNE => "AIRBORNE"
  | LANDED => "LANDED"
  | CANCELLED => "CANCELLED"
  end.

(** ** Exceptions (section 3 of the source)

    The classes the program can raise: the two built-in ones it uses
    ([ValueError], and [OverflowError] from [int] of an infinite float)
    and the hierarchy it declares under [AirportError]. *)

Inductive ExcClass :=
  | ValueError
  | OverflowError
  | AirportError
  | CapacityExceededError
  | GateNotAvailableError
  | RunwayNotAvailableError
  | FlightNotFoundError
  | SchedulingError.

#[global] Instance ExcClass_eq_dec : EqDecision ExcClass.
Proof. solve_decision. Defined.

(** [issubclass(c, AirportError)]: what [except AirportError] catches. *)
Definition is_AirportError (c : ExcClass) : bool :=
  match c with
  | ValueError | OverflowError => false
  | _ => true
  end.

Record Exc := mkExc { exc_class : ExcClass; exc_msg : string }.

(** ** Computations over a mutable object *)

Inductive Result (A : Type) :=
  | Ok (x : A)
  | Raise (e : Exc).
Arguments Ok {A} x.
Arguments Raise {A} e.

Definition M (S A : Type) : Type := S -> Result A * S.

Definition ret {S A} (x : A) : M S A := fun s => (Ok x, s).

Definition bind {S A B} (m : M S A) (k : A -> M S B) : M S B :=
  fun s =>
    match m s with
    | (Ok x, s') => k x s'
    | (Raise e, s') => (Raise e, s')
    end.

Definition raise {S A} (c : ExcClass) (msg : string) : M S A :=
  fun s => (Raise (mkExc c msg), s).

(** Read a field of [self]. *)
Definition gets {S A} (f : S -> A) : M S A := fun s => (Ok (f s), s).

(** Assign to [self]. *)
Definition modify {S} (f : S -> S) : M S unit := fun s => (Ok tt, f s).

(** Evaluate an expression that may raise without touching [self]. *)
Definition lift {S A} (r : Result A) : M S A := fun s => (r, s).

Declare Scope py_scope.
Delimit Scope py_scope with py.
Notation "x <- c1 ;; c2" := (bind c1 (fun x => c2))
  (at level 100, c1 at next level, right associativity) : py_scope.
Notation "c1 ;;; c2" := (bind c1 (fun _ => c2))
  (at level 100, right associativity) : py_scope.
Open Scope py_scope.

(** The outcome and the final state of a run. *)
Definition outcome {S A} (p : Result A * S) : Result A := fst p.
Definition state {S A} (p : Result A * S) : S := snd p.

(** ** Floats

    The float fields are carried along; the only operation the core
    applies to one is [int(x)], which truncates a finite value towards
    zero and raises on an infinity or a NaN. *)

Inductive PyFloat :=
  | Finite (q : Q)
  | Infinity (negative : bool)
  | NaN.

Definition py_int (x : PyFloat) : Result Z :=
  match x with
  | Finite q => Ok (Z.quot (Qnum q) (Z.pos (Qden q)))
  | Infinity _ =>
      Raise (mkExc OverflowError "cannot convert float infinity to integer")
  | NaN => Raise (mkExc ValueError "cannot convert float NaN to integer")
  end.

(** ** Aircraft (section 4 of the source) *)

Module Aircraft.

(** The fields of the abstract base class. *)
Record base := mkBase {
  model : string;
  empty_weight_kg : PyFloat;
  max_takeoff_weight_kg : PyFloat;
  engine_type : EngineType;
  registration : string;
  id : Z
}.

(** The two concrete subclasses. *)
Inductive t :=
  | PassengerAircraft (b : base) (seat_rows seats_per_row : Z)
      (fuel_capacity_l avg_consumption_l_per_100km : PyFloat)
  | CargoAircraft (b : base)
      (cargo_volume_m3 max_payload_kg fuel_capacity_l efficiency_factor : PyFloat).

(** [isinstance(a, PassengerAircraft)] *)
Definition is_passenger (a : t) : bool :=
  match a with
  | PassengerAircraft _ _ _ _ _ => true
  | CargoAircraft _ _ _ _ _ => false
  end.

(** The [capacity] property. *)
Definition capacity (a : t) : Result Z :=
  match a with
  | PassengerAircraft _ seat_rows seats_per_row _ _ =>
      Ok (seat_rows * seats_per_row)
  | CargoAircraft _ _ max_payload_kg _ _ => py_int max_payload_kg
  end.

End Aircraft.

(** ** Infrastructure (section 5 of the source) *)

Module Gate.

Record t := mk {
  name : string;
  max_wingspan_m : PyFloat;
  occupied_by : option Z;
  id : Z
}.

Definition with_occupied_by (v : option Z) (g : t) : t :=
  mk (name g) (max_wingspan_m g) v (id g).

Definition is_free (g : t) : bool :=
  match occupied_by g with
  | None => true
  | Some _ => false
  end.

Definition assign (flight_id : Z) : M t unit :=
  free <- gets is_free ;;
  if negb free then
    nm <- gets name ;;
    raise ValueError ("Gate " +:+ nm +:+ " ist belegt.")
  else
    modify (with_occupied_by (Some flight_id)).

Definition release : M t unit :=
  modify (with_occupied_by None).

End Gate.

Module Runway.

Record t := mk {
  name : string;
  length_m : Z;
  status : RunwayStatus;
  current_flight : option Z;
  id : Z
}.

Definition with_status (v : RunwayStatus) (r : t) : t :=
  mk (name r) (length_m r) v (current_flight r) (id r).

Definition with_current_flight (v : option Z) (r : t) : t :=
  mk (name r) (length_m r) (status r) v (id r).

Definition is_available (r : t) : bool :=
  bool_decide (status r = FREE)
  && match current_flight r with None => true | Some _ => false end.

Definition occupy (flight_id : Z) : M t unit :=
  available <- gets is_available ;;
  if negb available then
    nm <- gets name ;;
    raise ValueError ("Piste " +:+ nm +:+ " nicht verfügbar.")
  else
    modify (with_current_flight (Some flight_id)) ;;;
    modify (with_status IN_USE).

Definition release : M t unit :=
  modify (with_current_flight None) ;;;
  modify (with_status FREE).

End Runway.

(** ** Flight (section 6 of the source) *)

Module Flight.

Record t := mk {
  flight_number : string;
  origin : string;
  destination : string;
  aircraft : Aircraft.t;
  planned_departure : string;
  planned_arrival : string;
  status : FlightStatus;
  gate_id : option Z;
  runway_id : option Z;
  passengers_checked_in : Z;
  cargo_loaded_kg : PyFloat;
  id : Z
}.

Definition with_status (v : FlightStatus) (f : t) : t :=
  mk (flight_number f) (origin f) (destination f) (aircraft f)
     (planned_departure f) (planned_arrival f) v (gate_id f) (runway_id f)
     (passengers_checked_in f) (cargo_loaded_kg f) (id f).

Definition with_gate_id (v : option Z) (f : t) : t :=
  mk (flight_number f) (origin f) (destination f) (aircraft f)
     (planned_departure f) (planned_arrival f) (status f) v (runway_id f)
     (passengers_checked_in f) (cargo_loaded_kg f) (id f).

Definition with_runway_id (v : option Z) (f : t) : t :=
  mk (flight_number f) (origin f) (destination f) (aircraft f)
     (planned_departure f) (planned_arrival f) (status f) (gate_id f) v
     (passengers_checked_in f) (cargo_loaded_kg f) (id f).

Definition with_passengers_checked_in (v : Z) (f : t) : t :=
  mk (flight_number f) (origin f) (destination f) (aircraft f)
     (planned_departure f) (planned_arrival f) (status f) (gate_id f)
     (runway_id f) v (cargo_loaded_kg f) (id f).

(** [status in (s1, s2)] *)
Definition status_in (s : FlightStatus) (allowed : list FlightStatus) : bool :=
  bool_decide (s ∈ allowed).

Definition can_board (f : t) : bool :=
  bool_decide (status f = BOARDING) && Aircraft.is_passenger (aircraft f).

Definition board_passengers (count : Z) : M t unit :=
  ac <- gets aircraft ;;
  if negb (Aircraft.is_passenger ac) then
    raise ValueError "Nur Passagiermaschinen können Passagiere boarden."
  else
  st <- gets status ;;
  if negb (status_in st [BOARDING; PLANNED]) then
    raise ValueError ("Boarding nicht möglich im Status " +:+ FlightStatus_name st)
  else
  checked_in <- gets passengers_checked_in ;;
  let new_total := checked_in + count in
  capacity <- lift (Aircraft.capacity ac) ;;
  if new_total >? capacity then
    raise CapacityExceededError "Kapazität überschritten."
  else
  modify (with_passengers_checked_in new_total) ;;;
  checked_in' <- gets passengers_checked_in ;;
  capacity' <- lift (Aircraft.capacity ac) ;;
  if checked_in' =? capacity' then modify (with_status READY) else ret tt.

Definition set_status (new_status : FlightStatus) : M t unit :=
  modify (with_status new_status).

End Flight.

(** ** Scheduling (section 7 of the source) *)

Module Schedule.

(** [flights: Dict[int, Flight]], in insertion order. *)
Record t := mk { flights : list (Z * Flight.t) }.

(** [flight_id in self.flights] *)
Definition contains (flight_id : Z) (s : t) : bool :=
  bool_decide (flight_id ∈ (flights s).*1).

(** [self.flights[flight_id]] for a key that is present. *)
Definition lookup (flight_id : Z) (s : t) : option Flight.t :=
  (fun hit => hit.2.2) <$> list_find (fun kv => kv.1 = flight_id) (flights s).

Definition add_flight (flight : Flight.t) : M t unit :=
  present <- gets (contains (Flight.id flight)) ;;
  if present then
    raise SchedulingError "Flug-ID bereits vorhanden."
  else
    modify (fun s => mk (flights s ++ [(Flight.id flight, flight)])).

Definition remove_flight (flight_id : Z) : M t unit :=
  present <- gets (contains flight_id) ;;
  if negb present then
    raise FlightNotFoundError "Flug nicht gefunden."
  else
    modify (fun s => mk (filter (fun kv => kv.1 ≠ flight_id) (flights s))).

Definition find_by_number (flight_number : string) (s : t) : list Flight.t :=
  filter (fun f => Flight.flight_number f = flight_number) (flights s).*2.

Definition list_planned (s : t) : list Flight.t :=
  filter (fun f => Flight.status f = PLANNED) (flights s).*2.

Definition all (s : t) : list Flight.t := (flights s).*2.

End Schedule.

Module SimpleScheduler.

(** [hasattr(a, "capacity")]: both classes define the property, so the
    answer is [True] whenever evaluating the property returns; an
    exception other than [AttributeError] raised by the property is not
    caught by [hasattr]. *)
Definition hasattr_capacity (a : Aircraft.t) : Result bool :=
  match Aircraft.capacity a with
  | Ok _ => Ok true
  | Raise e => Raise e
  end.

(** The body of the loop, run on one flight [f]. *)
Definition auto_ready_body : M Flight.t unit :=
  st <- gets Flight.status ;;
  if bool_decide (st = BOARDING) then
    ac <- gets Flight.aircraft ;;
    has <- lift (hasattr_capacity ac) ;;
    if has then
      checked_in <- gets Flight.passengers_checked_in ;;
      capacity <- lift (Aircraft.capacity ac) ;;
      if checked_in =? capacity then Flight.set_status READY else ret tt
    else ret tt
  else ret tt.

(** [for f in ...values(): body], stopping at the first exception. *)
Fixpoint for_each_value (body : M Flight.t unit) (l : list (Z * Flight.t))
  : Result unit * list (Z * Flight.t) :=
  match l with
  | [] => (Ok tt, [])
  | (k, f) :: l' =>
      match body f with
      | (Ok _, f') =>
          let '(r, l'') := for_each_value body l' in (r, (k, f') :: l'')
      | (Raise e, f') => (Raise e, (k, f') :: l')
      end
  end.

Definition auto_ready_if_boarded : M Schedule.t unit :=
  fun s =>
    let '(r, l) := for_each_value auto_ready_body (Schedule.flights s) in
    (r, Schedule.mk l).

End SimpleScheduler.

(** ** Airport (section 8 of the source) *)

#[global] Instance Gate_inhabited : Inhabited Gate.t :=
  populate (Gate.mk "" NaN None 0).

#[global] Instance Runway_inhabited : Inhabited Runway.t :=
  populate (Runway.mk "" 0 FREE None 0).

#[global] Instance Flight_inhabited : Inhabited Flight.t :=
  populate (Flight.mk "" "" ""
    (Aircraft.CargoAircraft (Aircraft.mkBase "" NaN NaN JET "" 0) NaN NaN NaN NaN)
    "" "" PLANNED None None 0 NaN 0).

Module Airport.

Record t := mk {
  name : string;
  gates : list Gate.t;
  runways : list Runway.t;
  flights : list Flight.t
}.

Definition with_gates (v : list Gate.t) (a : t) : t :=
  mk (name a) v (runways a) (flights a).

Definition with_runways (v : list Runway.t) (a : t) : t :=
  mk (name a) (gates a) v (flights a).

Definition with_flights (v : list Flight.t) (a : t) : t :=
  mk (name a) (gates a) (runways a) v.

(** The object at a position of one of the lists, as it is now. *)
Definition get_gate (j : nat) : M t Gate.t := gets (fun a => gates a !!! j).
Definition get_runway (k : nat) : M t Runway.t := gets (fun a => runways a !!! k).
Definition get_flight (i : nat) : M t Flight.t := gets (fun a => flights a !!! i).

(** Call a method on the object at a position of one of the lists: the
    method runs on the object as it is now, and what it leaves is what
    the list holds afterwards. *)
Definition on_gate {A} (j : nat) (m : M Gate.t A) : M t A :=
  fun a =>
    let '(r, g') := m (gates a !!! j) in
    (r, with_gates (<[j := g']> (gates a)) a).

Definition on_runway {A} (k : nat) (m : M Runway.t A) : M t A :=
  fun a =>
    let '(r, r') := m (runways a !!! k) in
    (r, with_runways (<[k := r']> (runways a)) a).

Definition on_flight {A} (i : nat) (m : M Flight.t A) : M t A :=
  fun a =>
    let '(r, f') := m (flights a !!! i) in
    (r, with_flights (<[i := f']> (flights a)) a).

Definition add_gate (gate : Gate.t) : M t unit :=
  modify (fun a => with_gates (gates a ++ [gate]) a).

Definition add_runway (runway : Runway.t) : M t unit :=
  modify (fun a => with_runways (runways a ++ [runway]) a).

Definition add_flight (flight : Flight.t) : M t unit :=
  modify (fun a => with_flights (flights a ++ [flight]) a).

(** Returns the position of the first flight whose id is [flight_id]. *)
Definition find_flight (flight_id : Z) : M t nat :=
  fs <- gets flights ;;
  match list_find (fun f => Flight.id f = flight_id) fs with
  | Some (i, _) => ret i
  | None =>
      raise FlightNotFoundError
        ("Flug " +:+ pretty flight_id +:+ " nicht gefunden.")
  end.

(** The loop visits the gates in list order and returns from inside its
    body at the first free one; the gates before it are only tested. *)
Definition assign_gate (flight_id : Z) : M t nat :=
  flight <- find_flight flight_id ;;
  gs <- gets gates ;;
  match list_find (fun g => Gate.is_free g = true) gs with
  | Some (j, _) =>
      on_gate j (Gate.assign flight_id) ;;;
      g <- get_gate j ;;
      on_flight flight (modify (Flight.with_gate_id (Some (Gate.id g)))) ;;;
      ret j
  | None => raise GateNotAvailableError "Kein Gate frei."
  end.

Definition release_gate (flight_id : Z) : M t unit :=
  flight <- find_flight flight_id ;;
  fl <- get_flight flight ;;
  match Flight.gate_id fl with
  | None => ret tt
  | Some _ =>
      gs <- gets gates ;;
      match list_find (fun g => Some (Gate.id g) = Flight.gate_id fl) gs with
      | Some (j, _) =>
          on_gate j Gate.release ;;;
          on_flight flight (modify (Flight.with_gate_id None))
      | None => ret tt
      end
  end.

Definition assign_runway_for_departure (flight_id : Z) : M t nat :=
  flight <- find_flight flight_id ;;
  rs <- gets runways ;;
  match list_find (fun r => Runway.is_available r = true) rs with
  | Some (k, _) =>
      on_runway k (Runway.occupy flight_id) ;;;
      r <- get_runway k ;;
      on_flight flight (modify (Flight.with_runway_id (Some (Runway.id r)))) ;;;
      on_flight flight (Flight.set_status TAXI) ;;;
      ret k
  | None => raise RunwayNotAvailableError "Keine Piste frei."
  end.

Definition depart (flight_id : Z) : M t unit :=
  flight <- find_flight flight_id ;;
  fl <- get_flight flight ;;
  if negb (Flight.status_in (Flight.status fl) [READY; TAXI]) then
    raise ValueError "Flug nicht abflugbereit."
  else
  match Flight.runway_id fl with
  | None => raise ValueError "Keine Piste zugewiesen."
  | Some _ =>
      on_flight flight (Flight.set_status AIRBORNE) ;;;
      fl <- get_flight flight ;;
      rs <- gets runways ;;
      match list_find (fun r => Some (Runway.id r) = Flight.runway_id fl) rs with
      | Some (k, _) =>
          on_runway k Runway.release ;;;
          on_flight flight (modify (Flight.with_runway_id None))
      | None => ret tt
      end ;;;
      release_gate flight_id
  end.

Definition arrive (flight_id : Z) : M t unit :=
  flight <- find_flight flight_id ;;
  fl <- get_flight flight ;;
  if negb (bool_decide (Flight.status fl = AIRBORNE)) then
    raise ValueError "Flug nicht in der Luft."
  else
    on_flight flight (Flight.set_status LANDED).

Definition list_flights (a : t) : list Flight.t := flights a.

End Airport.

(** ** Demo data (section 9 of the source) *)

Definition demo_a1 : Aircraft.t :=
  Aircraft.PassengerAircraft
    (Aircraft.mkBase "A320neo" (Finite 43000) (Finite 79000) JET "D-AIAB" 1)
    30 6 (Finite 19000) (Finite 24).

Definition demo_a2 : Aircraft.t :=
  Aircraft.CargoAircraft
    (Aircraft.mkBase "B747F" (Finite 180000) (Finite 396000) JET "D-CARG" 2)
    (Finite 700) (Finite 130000) (Finite 183000) (Finite (85 # 100)).

Definition demo_f1 : Flight.t :=
  Flight.mk "AB123" "DEMO" "LHR" demo_a1
    "2025-09-08 09:00" "2025-09-08 10:15" PLANNED None None 0 (Finite 0) 1.

Definition demo_f2 : Flight.t :=
  Flight.mk "CG900" "DEMO" "JFK" demo_a2
    "2025-09-08 11:00" "2025-09-08 17:30" PLANNED None None 0 (Finite 0) 2.

Definition demo_gate_A1 : Gate.t := Gate.mk "A1" (Finite 60) None 1.
Definition demo_gate_A2 : Gate.t := Gate.mk "A2" (Finite 52) None 2.
Definition demo_runway_L : Runway.t := Runway.mk "09L/27R" 3800 FREE None 1.
Definition demo_runway_R : Runway.t := Runway.mk "09R/27L" 3650 FREE None 2.

Definition build_demo_airport : Airport.t :=
  state
    ((Airport.add_gate demo_gate_A1 ;;;
      Airport.add_gate demo_gate_A2 ;;;
      Airport.add_runway demo_runway_L ;;;
      Airport.add_runway demo_runway_R ;;;
      Airport.add_flight demo_f1 ;;;
      Airport.add_flight demo_f2)
       (Airport.mk "Demo International" [] [] [])).

(** Further states used as examples. *)

Definition occupied_gate : Gate.t := Gate.mk "A1" (Finite 60) (Some 1) 1.

Definition maintenance_runway : Runway.t :=
  Runway.mk "09L/27R" 3800 MAINTENANCE None 1.

(** Flight 1 of the demo after boarding 100 and then 80 passengers. *)
Definition boarded_f1 : Flight.t :=
  state ((Flight.board_passengers 100 ;;; Flight.board_passengers 80) demo_f1).

(** The demo airport with flight 1 fully boarded and no runway assigned. *)
Definition boarded_airport : Airport.t :=
  Airport.with_flights [boarded_f1; demo_f2] build_demo_airport.

(** A flight constructed with [gate_id=9], [READY] and holding runway 1,
    in an airport whose gates have the ids 1 and 2. *)
Definition dangling_gate_flight : Flight.t :=
  Flight.mk "AB123" "DEMO" "LHR" demo_a1
    "2025-09-08 09:00" "2025-09-08 10:15" READY (Some 9) (Some 1) 180 (Finite 0) 1.

Definition held_runway_L : Runway.t :=
  Runway.mk "09L/27R" 3800 IN_USE (Some 1) 1.

Definition dangling_gate_airport : Airport.t :=
  Airport.mk "Demo International" [demo_gate_A1; demo_gate_A2]
    [held_runway_L; demo_runway_R] [dangling_gate_flight; demo_f2].

(** [run_demo] up to, and not including, the call of [depart]. *)
Definition demo_before_departure : Airport.t :=
  state
    ((Airport.assign_gate 1 ;;;
      Airport.on_flight 0 (Flight.set_status BOARDING) ;;;
      Airport.on_flight 0 (Flight.board_passengers 100) ;;;
      Airport.on_flight 0 (Flight.board_passengers 80) ;;;
      Airport.assign_runway_for_departure 1)
       build_demo_airport).

(** The demo airport after flight 1 has been given its first gate. *)
Definition demo_after_first_gate : Airport.t :=
  state (Airport.assign_gate 1 build_demo_airport).

(** A sequence of gate calls made for one flight, each one run on the
    state the previous one left, whether it returned or raised. *)
Inductive gate_call := AssignGate | ReleaseGate.

Definition do_gate_call (flight_id : Z) (a : Airport.t) (c : gate_call) : Airport.t :=
  match c with
  | AssignGate => state (Airport.assign_gate flight_id a)
  | ReleaseGate => state (Airport.release_gate flight_id a)
  end.

Definition do_gate_calls (flight_id : Z) (cs : list gate_call) (a : Airport.t) : Airport.t :=
  foldl (do_gate_call flight_id) a cs.

(** ** Predicates used in the statements *)

(** [x], at position [i], is the first element of [l] that satisfies [P]:
    what a [for] loop with a test and an early exit stops at. *)
Definition is_first {A} (P : A -> Prop) (l : list A) (i : nat) (x : A) : Prop :=
  l !! i = Some x /\ P x /\ forall j y, l !! j = Some y -> (j < i)%nat -> ~ P y.

(** The flight that [find_flight flight_id] finds. *)
Definition the_flight (a : Airport.t) (flight_id : Z) (i : nat) (fl : Flight.t) : Prop :=
  is_first (fun f => Flight.id f = flight_id) (Airport.flights a) i fl.

(** The runway invariant of the data model. *)
Definition runway_invariant (r : Runway.t) : Prop :=
  Runway.status r = IN_USE <-> Runway.current_flight r <> None.

(** The gate reference of a flight is unset or is the id of a gate of the
    airport. *)
Definition gate_ref_ok (a : Airport.t) (fl : Flight.t) : Prop :=
  forall gid, Flight.gate_id fl = Some gid ->
    exists j g, Airport.gates a !! j = Some g /\ Gate.id g = gid.

(** The runway reference of a flight is the id of a runway of the airport. *)
Definition holds_runway (a : Airport.t) (fl : Flight.t) (k : nat) (r : Runway.t) : Prop :=
  is_first (fun r => Some (Runway.id r) = Flight.runway_id fl) (Airport.runways a) k r.

(** Gate ids are pairwise distinct, as the counter in [Gate.__post_init__]
    makes them. *)
Definition gate_ids_unique (a : Airport.t) : Prop :=
  NoDup (Gate.id <$> Airport.gates a).

(** The state in which [depart] calls [release_gate]: the flight is
    [AIRBORNE] and, when a runway with the referenced id is found, that
    runway is released and the runway reference cleared. *)
Definition after_runway_release (a : Airport.t) (i : nat) (fl : Flight.t) : Airport.t :=
  let fl1 := Flight.with_status AIRBORNE fl in
  match list_find (fun r => Some (Runway.id r) = Flight.runway_id fl)
          (Airport.runways a) with
  | Some (k, r) =>
      Airport.mk (Airport.name a) (Airport.gates a)
        (<[k := Runway.mk (Runway.name r) (Runway.length_m r) FREE None (Runway.id r)]>
           (Airport.runways a))
        (<[i := Flight.with_runway_id None fl1]> (Airport.flights a))
  | None =>
      Airport.mk (Airport.name a) (Airport.gates a) (Airport.runways a)
        (<[i := fl1]> (Airport.flights a))
  end.

(** Every flight of the airport has a gate reference that is unset or
    the id of a gate of the airport.  The airport's operations establish
    and keep this (see the section on referential integrity). *)
Definition gate_refs_ok (a : Airport.t) : Prop :=
  forall i fl, Airport.flights a !! i = Some fl -> gate_ref_ok a fl.

(** Gate [G], at position [k], is out of reach of the flight found under
    [flight_id]: the gate is there, and the flight's gate reference is
    not its id. *)
Definition out_of_reach (flight_id : Z) (i k : nat) (G : Gate.t) (a : Airport.t) : Prop :=
  gate_ids_unique a
  /\ Airport.gates a !! k = Some G
  /\ exists fl, the_flight a flight_id i fl /\ Flight.gate_id fl <> Some (Gate.id G).

(** ** Construction and the id counters (sections 4 to 6 of the source)

    The module-level counters and class attributes that the constructors
    read and advance: the three [itertools.count(1)] objects (held as
    the next value they yield), [Flight._id_counter], and the
    [total_aircraft_created] attribute that [type(self).x += 1] creates
    on each concrete class ([Aircraft]'s own stays 0). *)

Module Globals.

Record t := mk {
  aircraft_id_counter : Z;
  passenger_total_created : Z;
  cargo_total_created : Z;
  gate_id_counter : Z;
  runway_id_counter : Z;
  flight_id_counter : Z
}.

(** The counters when the module has just been loaded. *)
Definition fresh : t := mk 1 0 0 1 1 1.

Definition next_aircraft_id (g : t) : t :=
  mk (aircraft_id_counter g + 1) (passenger_total_created g)
     (cargo_total_created g) (gate_id_counter g) (runway_id_counter g)
     (flight_id_counter g).

Definition count_passenger (g : t) : t :=
  mk (aircraft_id_counter g) (passenger_total_created g + 1)
     (cargo_total_created g) (gate_id_counter g) (runway_id_counter g)
     (flight_id_counter g).

Definition count_cargo (g : t) : t :=
  mk (aircraft_id_counter g) (passenger_total_created g)
     (cargo_total_created g + 1) (gate_id_counter g) (runway_id_counter g)
     (flight_id_counter g).

Definition next_gate_id (g : t) : t :=
  mk (aircraft_id_counter g) (passenger_total_created g)
     (cargo_total_created g) (gate_id_counter g + 1) (runway_id_counter g)
     (flight_id_counter g).

Definition next_runway_id (g : t) : t :=
  mk (aircraft_id_counter g) (passenger_total_created g)
     (cargo_total_created g) (gate_id_counter g) (runway_id_counter g + 1)
     (flight_id_counter g).

Definition next_flight_id (g : t) : t :=
  mk (aircraft_id_counter g) (passenger_total_created g)
     (cargo_total_created g) (gate_id_counter g) (runway_id_counter g)
     (flight_id_counter g + 1).

End Globals.

(** [x >= y] on floats: false as soon as one side is a NaN. *)
Definition py_float_ge (x y : PyFloat) : bool :=
  match x, y with
  | NaN, _ => false
  | _, NaN => false
  | Finite a, Finite b => Qle_bool b a
  | Infinity false, _ => true
  | _, Infinity true => true
  | Infinity true, _ => false
  | Finite _, Infinity false => false
  end.

Inductive AircraftClass := PassengerClass | CargoClass.

(** [Aircraft.__post_init__], run for an object of class [cls]: it takes
    the id and counts the object before it validates the weights. *)
Definition Aircraft_post_init (cls : AircraftClass)
    (empty_weight_kg max_takeoff_weight_kg : PyFloat) : M Globals.t Z :=
  id <- gets Globals.aircraft_id_counter ;;
  modify Globals.next_aircraft_id ;;;
  modify (match cls with
          | PassengerClass => Globals.count_passenger
          | CargoClass => Globals.count_cargo
          end) ;;;
  if py_float_ge empty_weight_kg max_takeoff_weight_kg then
    raise ValueError "Leermasse muss kleiner als MTOW sein."
  else ret id.

(** [PassengerAircraft(...)] *)
Definition PassengerAircraft_init (model : string)
    (empty_weight_kg max_takeoff_weight_kg : PyFloat) (engine_type : EngineType)
    (registration : string) (seat_rows seats_per_row : Z)
    (fuel_capacity_l avg_consumption_l_per_100km : PyFloat)
  : M Globals.t Aircraft.t :=
  id <- Aircraft_post_init PassengerClass empty_weight_kg max_takeoff_weight_kg ;;
  ret (Aircraft.PassengerAircraft
         (Aircraft.mkBase model empty_weight_kg max_takeoff_weight_kg
            engine_type registration id)
         seat_rows seats_per_row fuel_capacity_l avg_consumption_l_per_100km).

(** [CargoAircraft(...)]; [efficiency_factor] defaults to 0.85. *)
Definition CargoAircraft_init (model : string)
    (empty_weight_kg max_takeoff_weight_kg : PyFloat) (engine_type : EngineType)
    (registration : string)
    (cargo_volume_m3 max_payload_kg fuel_capacity_l efficiency_factor : PyFloat)
  : M Globals.t Aircraft.t :=
  id <- Aircraft_post_init CargoClass empty_weight_kg max_takeoff_weight_kg ;;
  ret (Aircraft.CargoAircraft
         (Aircraft.mkBase model empty_weight_kg max_takeoff_weight_kg
            engine_type registration id)
         cargo_volume_m3 max_payload_kg fuel_capacity_l efficiency_factor).

(** [Gate(name, max_wingspan_m, occupied_by)] *)
Definition Gate_init (name : string) (max_wingspan_m : PyFloat)
    (occupied_by : option Z) : M Globals.t Gate.t :=
  id <- gets Globals.gate_id_counter ;;
  modify Globals.next_gate_id ;;;
  ret (Gate.mk name max_wingspan_m occupied_by id).

(** [Runway(name, length_m, status, current_flight)] *)
Definition Runway_init (name : string) (length_m : Z) (status : RunwayStatus)
    (current_flight : option Z) : M Globals.t Runway.t :=
  id <- gets Globals.runway_id_counter ;;
  modify Globals.next_runway_id ;;;
  ret (Runway.mk name length_m status current_flight id).

(** [Flight(...)]: the argument carries every field but [id]. *)
Definition Flight_init (fields : Flight.t) : M Globals.t Flight.t :=
  id <- gets Globals.flight_id_counter ;;
  modify Globals.next_flight_id ;;;
  ret (Flight.mk (Flight.flight_number fields) (Flight.origin fields)
         (Flight.destination fields) (Flight.aircraft fields)
         (Flight.planned_departure fields) (Flight.planned_arrival fields)
         (Flight.status fields) (Flight.gate_id fields) (Flight.runway_id fields)
         (Flight.passengers_checked_in fields) (Flight.cargo_loaded_kg fields) id).

(** One construction after the other, stopping at the first that raises. *)
Fixpoint construct_all {S A B} (make : A -> M S B) (args : list A) : M S (list B) :=
  match args with
  | [] => ret []
  | x :: args' =>
      y <- make x ;;
      ys <- construct_all make args' ;;
      ret (y :: ys)
  end.

(** The arguments of one aircraft construction, of either class. *)
Inductive aircraft_args :=
  | PassengerArgs (model : string)
      (empty_weight_kg max_takeoff_weight_kg : PyFloat) (engine_type : EngineType)
      (registration : string) (seat_rows seats_per_row : Z)
      (fuel_capacity_l avg_consumption_l_per_100km : PyFloat)
  | CargoArgs (model : string)
      (empty_weight_kg max_takeoff_weight_kg : PyFloat) (engine_type : EngineType)
      (registration : string)
      (cargo_volume_m3 max_payload_kg fuel_capacity_l efficiency_factor : PyFloat).

Definition Aircraft_init (args : aircraft_args) : M Globals.t Aircraft.t :=
  match args with
  | PassengerArgs model empty mtow engine registration rows per_row fuel consumption =>
      PassengerAircraft_init model empty mtow engine registration rows per_row
        fuel consumption
  | CargoArgs model empty mtow engine registration volume payload fuel factor =>
      CargoAircraft_init model empty mtow engine registration volume payload
        fuel factor
  end.

(** The weights a construction validates. *)
Definition overweight (args : aircraft_args) : bool :=
  match args with
  | PassengerArgs _ empty mtow _ _ _ _ _ _ => py_float_ge empty mtow
  | CargoArgs _ empty mtow _ _ _ _ _ _ => py_float_ge empty mtow
  end.

(** The class an attempt constructs. *)
Definition class_of (args : aircraft_args) : AircraftClass :=
  match args with
  | PassengerArgs _ _ _ _ _ _ _ _ _ => PassengerClass
  | CargoArgs _ _ _ _ _ _ _ _ _ => CargoClass
  end.

(** How many of the attempts construct an object of class [cls]. *)
Fixpoint attempts_of (cls : AircraftClass) (args : list aircraft_args) : Z :=
  match args with
  | [] => 0
  | x :: args' =>
      match cls, class_of x with
      | PassengerClass, PassengerClass => 1
      | CargoClass, CargoClass => 1
      | _, _ => 0
      end + attempts_of cls args'
  end.

(** [aircraft.id] *)
Definition aircraft_id (a : Aircraft.t) : Z :=
  match a with
  | Aircraft.PassengerAircraft b _ _ _ _ => Aircraft.id b
  | Aircraft.CargoAircraft b _ _ _ _ => Aircraft.id b
  end.

(** One construction after the other, each in a [try], keeping every
    outcome: a construction that raises does not stop the next one. *)
Fixpoint attempt_all {S A B} (make : A -> M S B) (args : list A) (s : S)
  : list (Result B) * S :=
  match args with
  | [] => ([], s)
  | x :: args' =>
      let '(r, s1) := make x s in
      let '(rs, s2) := attempt_all make args' s1 in
      (r :: rs, s2)
  end.

(** ** Sequences of calls on an airport

    Any call a client can make on an airport and on the flights it
    holds, each one run on the state the previous one left, whether it
    returned or raised. *)

Inductive call :=
  | CallAddGate (gate : Gate.t)
  | CallAddRunway (runway : Runway.t)
  | CallAddFlight (flight : Flight.t)
  | CallAssignGate (flight_id : Z)
  | CallReleaseGate (flight_id : Z)
  | CallAssignRunway (flight_id : Z)
  | CallDepart (flight_id : Z)
  | CallArrive (flight_id : Z)
  | CallBoard (i : nat) (count : Z)
  | CallSetStatus (i : nat) (new_status : FlightStatus).

Definition do_call (a : Airport.t) (c : call) : Airport.t :=
  match c with
  | CallAddGate gate => state (Airport.add_gate gate a)
  | CallAddRunway runway => state (Airport.add_runway runway a)
  | CallAddFlight flight => state (Airport.add_flight flight a)
  | CallAssignGate flight_id => state (Airport.assign_gate flight_id a)
  | CallReleaseGate flight_id => state (Airport.release_gate flight_id a)
  | CallAssignRunway flight_id =>
      state (Airport.assign_runway_for_departure flight_id a)
  | CallDepart flight_id => state (Airport.depart flight_id a)
  | CallArrive flight_id => state (Airport.arrive flight_id a)
  | CallBoard i count =>
      state (Airport.on_flight i (Flight.board_passengers count) a)
  | CallSetStatus i new_status =>
      state (Airport.on_flight i (Flight.set_status new_status) a)
  end.

Definition do_calls (cs : list call) (a : Airport.t) : Airport.t :=
  foldl do_call a cs.

(** A flight is added as its constructor's defaults leave it, without a
    gate reference; a runway is added with its status and its current
    flight in agreement. *)
Definition plain_call (c : call) : Prop :=
  match c with
  | CallAddFlight flight => Flight.gate_id flight = None
  | CallAddRunway runway => runway_invariant runway
  | _ => True
  end.

(** More predicates used in the statements. *)


(** The keys of a schedule are pairwise distinct, and each flight is
    filed under its own id. *)
Definition schedule_ok (s : Schedule.t) : Prop :=
  NoDup (Schedule.flights s).*1
  /\ Forall (fun kv => kv.1 = Flight.id kv.2) (Schedule.flights s).

(** What the scheduler's pass may do to one flight: nothing, or promote
    a [BOARDING] flight whose cabin is full to [READY]. *)
Definition promoted_or_same (f f' : Flight.t) : Prop :=
  f' = f
  \/ (Flight.status f = BOARDING
      /\ Aircraft.capacity (Flight.aircraft f) = Ok (Flight.passengers_checked_in f)
      /\ f' = Flight.with_status READY f).

(** Unfolding the plumbing of a computation. *)
Ltac run := unfold bind, ret, raise, gets, modify, lift, outcome, state; simpl.

(** * Properties *)

(** ** Searching a list *)

Lemma is_first_list_find {A} (P : A -> Prop) `{!forall x, Decision (P x)}
    (l : list A) (i : nat) (x : A) :
  is_first P l i x <-> list_find P l = Some (i, x).
Proof. unfold is_first. symmetry. apply list_find_Some. Qed.

Lemma list_find_of_is_first {A} (P : A -> Prop) `{!forall x, Decision (P x)}
    (l : list A) (i : nat) (x : A) :
  is_first P l i x -> list_find P l = Some (i, x).
Proof. apply is_first_list_find. Qed.

Lemma is_first_of_list_find {A} (P : A -> Prop) `{!forall x, Decision (P x)}
    (l : list A) (i : nat) (x : A) :
  list_find P l = Some (i, x) -> is_first P l i x.
Proof. apply is_first_list_find. Qed.

Lemma is_first_lookup {A} (P : A -> Prop) (l : list A) (i : nat) (x : A) :
  is_first P l i x -> l !! i = Some x.
Proof. by intros [? _]. Qed.

Lemma is_first_total `{Inhabited A} (P : A -> Prop) (l : list A) (i : nat) (x : A) :
  is_first P l i x -> l !!! i = x.
Proof. intros [Hl _]. by apply list_lookup_total_correct. Qed.

(** ** Runway *)

Lemma runway_release_eq (r : Runway.t) :
  Runway.release r =
  (Ok tt, Runway.mk (Runway.name r) (Runway.length_m r) FREE None (Runway.id r)).
Proof. reflexivity. Qed.

Lemma runway_occupy_available (flight_id : Z) (r : Runway.t) :
  Runway.is_available r = true ->
  Runway.occupy flight_id r =
  (Ok tt, Runway.mk (Runway.name r) (Runway.length_m r) IN_USE
            (Some flight_id) (Runway.id r)).
Proof. intros Hav. unfold Runway.occupy. run. by rewrite Hav. Qed.

Lemma runway_occupy_unavailable (flight_id : Z) (r : Runway.t) :
  Runway.is_available r = false ->
  Runway.occupy flight_id r =
  (Raise (mkExc ValueError ("Piste " +:+ Runway.name r +:+ " nicht verfügbar.")), r).
Proof. intros Hav. unfold Runway.occupy. run. by rewrite Hav. Qed.

Lemma runway_maintenance_unavailable (r : Runway.t) :
  Runway.status r = MAINTENANCE -> Runway.is_available r = false.
Proof. intros Hst. unfold Runway.is_available. by rewrite Hst. Qed.

(** C6. [release()] on a runway in any status, [MAINTENANCE] included,
    returns normally, clears [current_flight] and sets [status] to
    [FREE]; the other fields stay as they were. *)
Theorem runway_release_forces_free (r : Runway.t) :
  outcome (Runway.release r) = Ok tt
  /\ Runway.current_flight (state (Runway.release r)) = None
  /\ Runway.status (state (Runway.release r)) = FREE
  /\ Runway.name (state (Runway.release r)) = Runway.name r
  /\ Runway.length_m (state (Runway.release r)) = Runway.length_m r
  /\ Runway.id (state (Runway.release r)) = Runway.id r.
Proof. rewrite runway_release_eq. by repeat split. Qed.

(** ** Airport: finding a flight *)

Lemma find_flight_found (a : Airport.t) (flight_id : Z) (i : nat) (fl : Flight.t) :
  the_flight a flight_id i fl -> Airport.find_flight flight_id a = (Ok i, a).
Proof.
  intros Hfl. unfold Airport.find_flight. run.
  by rewrite (list_find_of_is_first _ _ _ _ Hfl).
Qed.

Lemma find_flight_missing (a : Airport.t) (flight_id : Z) :
  Forall (fun f => Flight.id f <> flight_id) (Airport.flights a) ->
  Airport.find_flight flight_id a =
  (Raise (mkExc FlightNotFoundError
            ("Flug " +:+ pretty flight_id +:+ " nicht gefunden.")), a).
Proof.
  intros Hno. unfold Airport.find_flight. run.
  by rewrite (proj2 (list_find_None _ _) Hno).
Qed.

Lemma find_flight_inv (a a' : Airport.t) (flight_id : Z) (i : nat) :
  Airport.find_flight flight_id a = (Ok i, a') ->
  a' = a /\ exists fl, the_flight a flight_id i fl.
Proof.
  unfold Airport.find_flight. run.
  destruct (list_find _ _) as [[i' fl]|] eqn:Hfind; [|done].
  intros [= <- <-]. split; [done|]. exists fl.
  exact (is_first_of_list_find _ _ _ _ Hfind).
Qed.

(** The search of [assign_runway_for_departure] only ever stops at a
    runway that [is_available] accepts. *)
Lemma assign_runway_selects_available (a a' : Airport.t) (flight_id : Z) (k : nat) :
  Airport.assign_runway_for_departure flight_id a = (Ok k, a') ->
  exists r, is_first (fun r => Runway.is_available r = true) (Airport.runways a) k r.
Proof.
  unfold Airport.assign_runway_for_departure, bind at 1.
  destruct (Airport.find_flight flight_id a) as [[i|e] a0] eqn:Hff; [|done].
  apply find_flight_inv in Hff as [-> _]. run.
  destruct (list_find _ _) as [[k' r]|] eqn:Hfind; [|done].
  pose proof (is_first_of_list_find _ _ _ _ Hfind) as Hfirst.
  unfold Airport.on_runway, Airport.get_runway, Airport.on_flight. run.
  rewrite (is_first_total _ _ _ _ Hfirst).
  assert (Hav : Runway.is_available r = true) by apply Hfirst.
  rewrite (runway_occupy_available _ _ Hav). simpl.
  intros [= <- _]. by exists r.
Qed.

(** C5. A runway state with [status == IN_USE] exactly when
    [current_flight] is set keeps that property through every successful
    [occupy] and every [release]; a runway in [MAINTENANCE] is not
    available whatever its [current_flight], and the runway that
    [assign_runway_for_departure] selects is never in [MAINTENANCE]. *)
Theorem runway_invariant_preserved (r : Runway.t) (flight_id : Z) :
  runway_invariant r ->
  (outcome (Runway.occupy flight_id r) = Ok tt ->
     runway_invariant (state (Runway.occupy flight_id r)))
  /\ (outcome (Runway.release r) = Ok tt
      /\ runway_invariant (state (Runway.release r)))
  /\ (forall m : Runway.t,
        Runway.status m = MAINTENANCE -> Runway.is_available m = false)
  /\ (forall (a a' : Airport.t) (fid : Z) (k : nat),
        Airport.assign_runway_for_departure fid a = (Ok k, a') ->
        exists r0, Airport.runways a !! k = Some r0
                   /\ Runway.is_available r0 = true
                   /\ Runway.status r0 <> MAINTENANCE).
Proof.
  intros _. split; [|split; [|split]].
  - intros Hok. destruct (Runway.is_available r) eqn:Hav.
    + rewrite (runway_occupy_available _ _ Hav). by split.
    + rewrite (runway_occupy_unavailable _ _ Hav) in Hok. by simpl in Hok.
  - rewrite runway_release_eq. by repeat split.
  - apply runway_maintenance_unavailable.
  - intros a a' fid k Hassign.
    destruct (assign_runway_selects_available _ _ _ _ Hassign) as [r0 (Hk & Hav & _)].
    exists r0. repeat split; [done..|].
    intros Hm. by rewrite (runway_maintenance_unavailable _ Hm) in Hav.
Qed.

Lemma runway_invariant_preserved_witness :
  runway_invariant demo_runway_L
  /\ runway_invariant (state (Runway.occupy 1 demo_runway_L))
  /\ runway_invariant (state (Runway.release demo_runway_L))
  /\ Runway.is_available (Runway.mk "09L/27R" 3800 MAINTENANCE None 1) = false
  /\ exists r0, Airport.runways build_demo_airport !! 0%nat = Some r0
                /\ Runway.is_available r0 = true
                /\ Runway.status r0 <> MAINTENANCE.
Proof.
  assert (Hinv : runway_invariant demo_runway_L).
  { split; simpl; [discriminate | by intros []]. }
  destruct (runway_invariant_preserved demo_runway_L 1 Hinv)
    as (Hocc & [_ Hrel] & Hm & Hsel).
  split; [exact Hinv|].
  split; [apply Hocc; reflexivity|].
  split; [exact Hrel|].
  split; [apply Hm; reflexivity|].
  eapply (Hsel build_demo_airport _ 1 0%nat). reflexivity.
Defined.

(** ** Airport: arrival *)

(** What [arrive] does once the flight is found. *)
Lemma arrive_eq (a : Airport.t) (flight_id : Z) (i : nat) (fl : Flight.t) :
  the_flight a flight_id i fl ->
  Airport.arrive flight_id a =
    if bool_decide (Flight.status fl = AIRBORNE)
    then (Ok tt, Airport.with_flights
                   (<[i := Flight.with_status LANDED fl]> (Airport.flights a)) a)
    else (Raise (mkExc ValueError "Flug nicht in der Luft."), a).
Proof.
  intros Hfl.
  unfold Airport.arrive, bind at 1. rewrite (find_flight_found _ _ _ _ Hfl).
  unfold Airport.get_flight, Airport.on_flight. run.
  rewrite (is_first_total _ _ _ _ Hfl).
  destruct (bool_decide _); simpl; by rewrite ?(is_first_total _ _ _ _ Hfl).
Qed.

(** C7. For the flight that [arrive(flight_id)] finds: when its status is
    not [AIRBORNE] the call raises the illegal-status error (the
    [ValueError] "Flug nicht in der Luft.") and the airport, the flight's
    status included, is exactly as before; when its status is [AIRBORNE]
    the call returns and the flight's status is [LANDED]. *)
Theorem arrive_requires_airborne (a : Airport.t) (flight_id : Z) (i : nat) (fl : Flight.t) :
  the_flight a flight_id i fl ->
  (Flight.status fl <> AIRBORNE ->
     Airport.arrive flight_id a =
       (Raise (mkExc ValueError "Flug nicht in der Luft."), a)
     /\ Flight.status <$> Airport.flights (state (Airport.arrive flight_id a)) !! i
        = Some (Flight.status fl))
  /\ (Flight.status fl = AIRBORNE ->
        Airport.arrive flight_id a =
          (Ok tt, Airport.with_flights
                    (<[i := Flight.with_status LANDED fl]> (Airport.flights a)) a)
        /\ Flight.status <$> Airport.flights (state (Airport.arrive flight_id a)) !! i
           = Some LANDED).
Proof.
  intros Hfl.
  pose proof (arrive_eq _ _ _ _ Hfl) as Harr.
  pose proof (is_first_lookup _ _ _ _ Hfl) as Hi.
  split; intros Hst; rewrite Harr.
  - rewrite bool_decide_eq_false_2 by done. split; [done|].
    unfold state; simpl. by rewrite Hi.
  - rewrite bool_decide_eq_true_2 by done. split; [done|].
    unfold state; simpl. rewrite list_lookup_insert_eq; [done|].
    by eapply lookup_lt_Some.
Qed.

Lemma arrive_requires_airborne_witness :
  Airport.arrive 1 build_demo_airport =
    (Raise (mkExc ValueError "Flug nicht in der Luft."), build_demo_airport)
  /\ Flight.status <$>
       Airport.flights (state (Airport.arrive 1 build_demo_airport)) !! 0%nat
     = Some PLANNED.
Proof.
  assert (Hfl : the_flight build_demo_airport 1 0 demo_f1).
  { repeat split. intros j y _ Hj. inversion Hj. }
  apply (proj1 (arrive_requires_airborne build_demo_airport 1 0 demo_f1 Hfl)).
  simpl. discriminate.
Defined.

(** ** Schedule *)

Lemma schedule_contains_lookup (flight_id : Z) (s : Schedule.t) :
  Schedule.contains flight_id s = true <-> is_Some (Schedule.lookup flight_id s).
Proof.
  unfold Schedule.contains, Schedule.lookup. rewrite bool_decide_eq_true.
  rewrite fmap_is_Some. split.
  - intros Hin. apply list_elem_of_fmap in Hin as ([k f] & Hk & Hkf).
    by apply (list_find_elem_of _ _ (k, f)).
  - intros [[n [k f]] Hfind].
    pose proof (is_first_of_list_find _ _ _ _ Hfind) as (Hn & Hk & _).
    simpl in Hk. subst k.
    apply (list_elem_of_fmap_2 fst _ (flight_id, f)).
    by eapply list_elem_of_lookup_2.
Qed.

(** C8. [add_flight] of a flight whose id is already a key of the
    schedule raises the duplicate-id error (the class [SchedulingError])
    and leaves the schedule exactly as it was, so the entry under that
    id is still the original one. *)
Theorem add_flight_duplicate (s : Schedule.t) (flight original : Flight.t) :
  Schedule.lookup (Flight.id flight) s = Some original ->
  Schedule.add_flight flight s =
    (Raise (mkExc SchedulingError "Flug-ID bereits vorhanden."), s)
  /\ Schedule.lookup (Flight.id flight) (state (Schedule.add_flight flight s))
     = Some original.
Proof.
  intros Hlook.
  assert (Hin : Schedule.contains (Flight.id flight) s = true).
  { apply schedule_contains_lookup. by rewrite Hlook. }
  assert (Hadd : Schedule.add_flight flight s =
    (Raise (mkExc SchedulingError "Flug-ID bereits vorhanden."), s)).
  { unfold Schedule.add_flight. run. by rewrite Hin. }
  by rewrite Hadd.
Qed.

Lemma add_flight_duplicate_witness :
  Schedule.add_flight (Flight.with_status BOARDING demo_f1)
    (Schedule.mk [(1, demo_f1); (2, demo_f2)]) =
    (Raise (mkExc SchedulingError "Flug-ID bereits vorhanden."),
     Schedule.mk [(1, demo_f1); (2, demo_f2)])
  /\ Schedule.lookup 1
       (state (Schedule.add_flight (Flight.with_status BOARDING demo_f1)
                 (Schedule.mk [(1, demo_f1); (2, demo_f2)])))
     = Some demo_f1.
Proof.
  apply (add_flight_duplicate (Schedule.mk [(1, demo_f1); (2, demo_f2)])
           (Flight.with_status BOARDING demo_f1) demo_f1).
  reflexivity.
Defined.

(** ** Scheduler *)

(** What one run of the loop body does to a flight. *)
Lemma auto_ready_body_eq (f : Flight.t) :
  SimpleScheduler.auto_ready_body f =
  if bool_decide (Flight.status f = BOARDING) then
    match Aircraft.capacity (Flight.aircraft f) with
    | Ok c =>
        if Flight.passengers_checked_in f =? c
        then (Ok tt, Flight.with_status READY f)
        else (Ok tt, f)
    | Raise e => (Raise e, f)
    end
  else (Ok tt, f).
Proof.
  unfold SimpleScheduler.auto_ready_body, SimpleScheduler.hasattr_capacity,
    Flight.set_status.
  run. destruct (bool_decide _); [|done].
  destruct (Aircraft.capacity _); simpl; [|done].
  by destruct (_ =? _).
Qed.

(** Running the loop body on a flight it has already been run on gives
    the same outcome and changes nothing. *)
Lemma auto_ready_body_stable (f : Flight.t) :
  SimpleScheduler.auto_ready_body (state (SimpleScheduler.auto_ready_body f))
  = SimpleScheduler.auto_ready_body f.
Proof.
  rewrite (auto_ready_body_eq f).
  case_bool_decide as Hst.
  - destruct (Aircraft.capacity (Flight.aircraft f)) as [c|e] eqn:Hcap.
    + destruct (Flight.passengers_checked_in f =? c) eqn:Hc; unfold state; simpl.
      * by rewrite auto_ready_body_eq.
      * rewrite auto_ready_body_eq, bool_decide_eq_true_2 by done.
        by rewrite Hcap, Hc.
    + unfold state; simpl.
      rewrite auto_ready_body_eq, bool_decide_eq_true_2 by done.
      by rewrite Hcap.
  - unfold state; simpl. by rewrite auto_ready_body_eq, bool_decide_eq_false_2.
Qed.

Lemma for_each_value_stable (body : M Flight.t unit) (l : list (Z * Flight.t)) :
  (forall f, body (state (body f)) = body f) ->
  SimpleScheduler.for_each_value body (snd (SimpleScheduler.for_each_value body l))
  = SimpleScheduler.for_each_value body l.
Proof.
  intros Hbody. induction l as [|[k f] l IH]; [done|].
  simpl. specialize (Hbody f). unfold state in Hbody.
  destruct (body f) as [[u|e] f'] eqn:Hf; simpl in Hbody.
  - destruct (SimpleScheduler.for_each_value body l) as [r l''] eqn:Hl.
    simpl in *. by rewrite Hbody, IH.
  - simpl. by rewrite Hbody.
Qed.

(** The pass leaves the keys of the schedule and their order alone. *)
Lemma for_each_value_keys (body : M Flight.t unit) (l : list (Z * Flight.t)) :
  (snd (SimpleScheduler.for_each_value body l)).*1 = l.*1.
Proof.
  induction l as [|[k f] l IH]; [done|]. simpl.
  destruct (body f) as [[u|e] f']; [|done].
  destruct (SimpleScheduler.for_each_value body l) as [r l'']. simpl in *.
  by f_equal.
Qed.

(** C9. [auto_ready_if_boarded] is idempotent: a second run right after
    a first one has the same outcome and leaves the schedule as the
    first run left it, so the flight statuses after two runs are those
    after one. *)
Theorem auto_ready_if_boarded_idempotent (s : Schedule.t) :
  SimpleScheduler.auto_ready_if_boarded
    (state (SimpleScheduler.auto_ready_if_boarded s))
  = SimpleScheduler.auto_ready_if_boarded s
  /\ Flight.status <$> Schedule.all
       (state (SimpleScheduler.auto_ready_if_boarded
                 (state (SimpleScheduler.auto_ready_if_boarded s))))
     = Flight.status <$> Schedule.all
         (state (SimpleScheduler.auto_ready_if_boarded s)).
Proof.
  assert (Hidem : SimpleScheduler.auto_ready_if_boarded
                    (state (SimpleScheduler.auto_ready_if_boarded s))
                  = SimpleScheduler.auto_ready_if_boarded s).
  { unfold SimpleScheduler.auto_ready_if_boarded, state.
    pose proof (for_each_value_stable SimpleScheduler.auto_ready_body
                  (Schedule.flights s) auto_ready_body_stable) as Hl.
    destruct (SimpleScheduler.for_each_value _ (Schedule.flights s)) as [r l].
    simpl in *. by rewrite Hl. }
  split; [exact Hidem|]. by rewrite Hidem.
Qed.

(** The pass is not the identity: a [BOARDING] flight with a full cabin
    is promoted to [READY]. *)
Example auto_ready_promotes :
  Flight.status <$> Schedule.all
    (state (SimpleScheduler.auto_ready_if_boarded
       (Schedule.mk [(1, Flight.with_status BOARDING boarded_f1); (2, demo_f2)])))
  = [READY; PLANNED].
Proof. reflexivity. Qed.

(** ** Flight: boarding *)

(** What [board_passengers] does, check by check. *)
Lemma board_passengers_eq (count : Z) (f : Flight.t) :
  Flight.board_passengers count f =
  if negb (Aircraft.is_passenger (Flight.aircraft f)) then
    (Raise (mkExc ValueError
              "Nur Passagiermaschinen können Passagiere boarden."), f)
  else if negb (Flight.status_in (Flight.status f) [BOARDING; PLANNED]) then
    (Raise (mkExc ValueError
              ("Boarding nicht möglich im Status "
               +:+ FlightStatus_name (Flight.status f))), f)
  else
    match Aircraft.capacity (Flight.aircraft f) with
    | Ok capacity =>
        let new_total := Flight.passengers_checked_in f + count in
        if new_total >? capacity then
          (Raise (mkExc CapacityExceededError "Kapazität überschritten."), f)
        else if new_total =? capacity then
          (Ok tt, Flight.with_status READY
                    (Flight.with_passengers_checked_in new_total f))
        else (Ok tt, Flight.with_passengers_checked_in new_total f)
    | Raise e => (Raise e, f)
    end.
Proof.
  unfold Flight.board_passengers. run.
  destruct (Aircraft.is_passenger _); simpl; [|done].
  destruct (Flight.status_in _ _); simpl; [|done].
  destruct (Aircraft.capacity _) as [c|e]; simpl; [|done].
  destruct (_ >? _); simpl; [done|].
  by destruct (_ =? _).
Qed.

(** C2, as the code has it. For a passenger aircraft and a flight in
    status [PLANNED] or [BOARDING], [board_passengers(count)] raises
    [CapacityExceededError] and changes nothing when
    [passengers_checked_in + count] exceeds the capacity; otherwise it
    adds [count] to [passengers_checked_in] and sets the status to
    [READY] exactly when the new total equals the capacity.  With
    capacity 180, boarding 100 and then 80 gives 180 checked in and
    status [READY]; boarding 1 more then fails on the status check
    (a [ValueError], the flight being [READY]), while boarding 81
    instead of 80 is what raises [CapacityExceededError]. *)
Theorem board_passengers_capacity (f : Flight.t) (count : Z)
    (b : Aircraft.base) (seat_rows seats_per_row : Z) (fuel consumption : PyFloat) :
  Flight.aircraft f =
    Aircraft.PassengerAircraft b seat_rows seats_per_row fuel consumption ->
  Flight.status f = PLANNED \/ Flight.status f = BOARDING ->
  let capacity := seat_rows * seats_per_row in
  let new_total := Flight.passengers_checked_in f + count in
  (new_total > capacity ->
     Flight.board_passengers count f =
       (Raise (mkExc CapacityExceededError "Kapazität überschritten."), f))
  /\ (new_total = capacity ->
        Flight.board_passengers count f =
          (Ok tt, Flight.with_status READY
                    (Flight.with_passengers_checked_in new_total f)))
  /\ (new_total < capacity ->
        Flight.board_passengers count f =
          (Ok tt, Flight.with_passengers_checked_in new_total f))
  /\ (Flight.board_passengers 100 demo_f1
        = (Ok tt, Flight.with_passengers_checked_in 100 demo_f1)
      /\ Flight.board_passengers 80 (Flight.with_passengers_checked_in 100 demo_f1)
         = (Ok tt, boarded_f1)
      /\ Flight.passengers_checked_in boarded_f1 = 180
      /\ Flight.status boarded_f1 = READY
      /\ Flight.board_passengers 1 boarded_f1
         = (Raise (mkExc ValueError "Boarding nicht möglich im Status READY"),
            boarded_f1)
      /\ Flight.board_passengers 81 (Flight.with_passengers_checked_in 100 demo_f1)
         = (Raise (mkExc CapacityExceededError "Kapazität überschritten."),
            Flight.with_passengers_checked_in 100 demo_f1)).
Proof.
  intros Hac Hst capacity new_total.
  assert (Hin : Flight.status_in (Flight.status f) [BOARDING; PLANNED] = true).
  { unfold Flight.status_in. by destruct Hst as [-> | ->]. }
  assert (Heq := board_passengers_eq count f).
  rewrite Hac in Heq. simpl in Heq. rewrite Hin in Heq. simpl in Heq.
  fold capacity new_total in Heq.
  split; [|split; [|split]].
  - intros Hgt. rewrite Heq, Z.gtb_ltb.
    by rewrite (proj2 (Z.ltb_lt _ _)) by lia.
  - intros Hcap. rewrite Heq, Z.gtb_ltb.
    rewrite (proj2 (Z.ltb_ge _ _)) by lia.
    by rewrite (proj2 (Z.eqb_eq _ _)).
  - intros Hlt. rewrite Heq, Z.gtb_ltb.
    rewrite (proj2 (Z.ltb_ge _ _)) by lia.
    by rewrite (proj2 (Z.eqb_neq _ _)) by lia.
  - by repeat split.
Qed.

Lemma board_passengers_capacity_witness :
  Flight.board_passengers 200 demo_f1 =
    (Raise (mkExc CapacityExceededError "Kapazität überschritten."), demo_f1)
  /\ Flight.board_passengers 180 demo_f1 =
       (Ok tt, Flight.with_status READY
                 (Flight.with_passengers_checked_in 180 demo_f1)).
Proof.
  assert (Hac : Flight.aircraft demo_f1 =
    Aircraft.PassengerAircraft
      (Aircraft.mkBase "A320neo" (Finite 43000) (Finite 79000) JET "D-AIAB" 1)
      30 6 (Finite 19000) (Finite 24)) by reflexivity.
  assert (Hst : Flight.status demo_f1 = PLANNED \/ Flight.status demo_f1 = BOARDING)
    by (left; reflexivity).
  split.
  - apply (proj1 (board_passengers_capacity demo_f1 200 _ _ _ _ _ Hac Hst)).
    simpl. lia.
  - apply (proj1 (proj2 (board_passengers_capacity demo_f1 180 _ _ _ _ _ Hac Hst))).
    reflexivity.
Defined.

(** With 180 of 180 passengers on board the flight is [READY], and one
    more boarding is turned down by the status check that comes before
    the capacity check: the exception is a [ValueError], not a
    [CapacityExceededError]. *)
Lemma board_when_full_is_status_error :
  Flight.passengers_checked_in boarded_f1 = 180
  /\ Flight.status boarded_f1 = READY
  /\ outcome (Flight.board_passengers 1 boarded_f1)
     = Raise (mkExc ValueError "Boarding nicht möglich im Status READY")
  /\ ~ (exists msg, outcome (Flight.board_passengers 1 boarded_f1)
                    = Raise (mkExc CapacityExceededError msg)).
Proof.
  split; [reflexivity|]. split; [reflexivity|]. split; [reflexivity|].
  intros [msg Hmsg]. discriminate Hmsg.
Qed.

(** ** Airport: gates *)

Lemma is_first_insert {A} (P : A -> Prop) (l : list A) (i : nat) (x x' : A) :
  is_first P l i x -> P x' -> is_first P (<[i := x']> l) i x'.
Proof.
  intros (Hi & _ & Hmin) Hx'. split; [|split; [done|]].
  - apply list_lookup_insert_eq. by eapply lookup_lt_Some.
  - intros j y Hj Hlt. rewrite list_lookup_insert_ne in Hj by lia. eauto.
Qed.

Lemma the_flight_insert (a a' : Airport.t) (flight_id : Z) (i : nat) (fl fl' : Flight.t) :
  the_flight a flight_id i fl ->
  Flight.id fl' = flight_id ->
  Airport.flights a' = <[i := fl']> (Airport.flights a) ->
  the_flight a' flight_id i fl'.
Proof.
  unfold the_flight. intros Hfl Hid ->. by eapply is_first_insert.
Qed.

(** What [assign_gate] does once the flight is found. *)
Lemma assign_gate_eq (a : Airport.t) (flight_id : Z) (i : nat) (fl : Flight.t) :
  the_flight a flight_id i fl ->
  Airport.assign_gate flight_id a =
  match list_find (fun g => Gate.is_free g = true) (Airport.gates a) with
  | Some (j, g) =>
      (Ok j,
       Airport.mk (Airport.name a)
         (<[j := Gate.with_occupied_by (Some flight_id) g]> (Airport.gates a))
         (Airport.runways a)
         (<[i := Flight.with_gate_id (Some (Gate.id g)) fl]> (Airport.flights a)))
  | None => (Raise (mkExc GateNotAvailableError "Kein Gate frei."), a)
  end.
Proof.
  intros Hfl.
  unfold Airport.assign_gate, bind at 1. rewrite (find_flight_found _ _ _ _ Hfl).
  run. destruct (list_find _ _) as [[j g]|] eqn:Hfind; [|done].
  pose proof (is_first_of_list_find _ _ _ _ Hfind) as (Hj & Hfree & _).
  unfold Airport.on_gate, Airport.get_gate, Airport.on_flight, Gate.assign.
  run. rewrite (list_lookup_total_correct _ _ _ Hj), Hfree. simpl.
  rewrite list_lookup_total_insert_eq by (by eapply lookup_lt_Some).
  by rewrite (is_first_total _ _ _ _ Hfl).
Qed.

(** What [release_gate] does once the flight is found. *)
Lemma release_gate_eq (a : Airport.t) (flight_id : Z) (i : nat) (fl : Flight.t) :
  the_flight a flight_id i fl ->
  Airport.release_gate flight_id a =
  match Flight.gate_id fl with
  | None => (Ok tt, a)
  | Some gid =>
      match list_find (fun g => Some (Gate.id g) = Some gid) (Airport.gates a) with
      | Some (j, g) =>
          (Ok tt,
           Airport.mk (Airport.name a)
             (<[j := Gate.with_occupied_by None g]> (Airport.gates a))
             (Airport.runways a)
             (<[i := Flight.with_gate_id None fl]> (Airport.flights a)))
      | None => (Ok tt, a)
      end
  end.
Proof.
  intros Hfl.
  unfold Airport.release_gate, bind at 1. rewrite (find_flight_found _ _ _ _ Hfl).
  unfold Airport.get_flight. run. rewrite (is_first_total _ _ _ _ Hfl).
  destruct (Flight.gate_id fl) as [gid|]; [|done]. run.
  destruct (list_find _ _) as [[j g]|] eqn:Hfind; [|done].
  pose proof (is_first_of_list_find _ _ _ _ Hfind) as (Hj & _ & _).
  unfold Airport.on_gate, Airport.on_flight, Gate.release. run.
  by rewrite (list_lookup_total_correct _ _ _ Hj), (is_first_total _ _ _ _ Hfl).
Qed.

(** ** Airport: departure *)

(** What [depart] does once the flight is found. *)
Lemma depart_eq (a : Airport.t) (flight_id : Z) (i : nat) (fl : Flight.t) :
  the_flight a flight_id i fl ->
  Airport.depart flight_id a =
  if negb (Flight.status_in (Flight.status fl) [READY; TAXI]) then
    (Raise (mkExc ValueError "Flug nicht abflugbereit."), a)
  else
    match Flight.runway_id fl with
    | None => (Raise (mkExc ValueError "Keine Piste zugewiesen."), a)
    | Some _ => Airport.release_gate flight_id (after_runway_release a i fl)
    end.
Proof.
  intros Hfl.
  pose proof (is_first_lookup _ _ _ _ Hfl) as Hi.
  pose proof (lookup_lt_Some _ _ _ Hi) as Hlen.
  unfold Airport.depart, bind at 1. rewrite (find_flight_found _ _ _ _ Hfl).
  unfold Airport.get_flight at 1. run. rewrite (is_first_total _ _ _ _ Hfl).
  destruct (negb _); [done|].
  destruct (Flight.runway_id fl) as [rid|] eqn:Hrid; [|done].
  unfold Airport.on_flight, Airport.get_flight, Airport.on_runway,
    Flight.set_status, Runway.release, after_runway_release.
  run. rewrite (is_first_total _ _ _ _ Hfl).
  rewrite list_lookup_total_insert_eq by done. simpl. rewrite Hrid.
  destruct (list_find _ _) as [[k r]|] eqn:Hfind; simpl; [|done].
  pose proof (is_first_of_list_find _ _ _ _ Hfind) as (Hk & _ & _).
  rewrite (list_lookup_total_correct _ _ _ Hk).
  rewrite list_lookup_total_insert_eq by done.
  by rewrite list_insert_insert_eq.
Qed.

(** C1, as the code has it. In an airport state where the flight found
    under [flight_id] has status [READY] or [TAXI], its runway reference
    is the id of a runway of the airport (it holds a runway), and its
    gate reference is unset or the id of a gate of the airport,
    [depart(flight_id)] returns normally; afterwards the flight is
    [AIRBORNE], its runway and gate references are unset, and the runway
    it held is [FREE] with [current_flight] unset.  The condition on the
    gate reference is needed: [release_gate] clears the reference only
    when it finds the gate. *)
Theorem depart_releases_resources
    (a : Airport.t) (flight_id : Z) (i : nat) (fl : Flight.t)
    (k : nat) (r : Runway.t) :
  the_flight a flight_id i fl ->
  Flight.status fl = READY \/ Flight.status fl = TAXI ->
  holds_runway a fl k r ->
  gate_ref_ok a fl ->
  exists (a' : Airport.t) (fl' : Flight.t) (r' : Runway.t),
    Airport.depart flight_id a = (Ok tt, a')
    /\ the_flight a' flight_id i fl'
    /\ Flight.status fl' = AIRBORNE
    /\ Flight.runway_id fl' = None
    /\ Flight.gate_id fl' = None
    /\ Airport.runways a' !! k = Some r'
    /\ Runway.id r' = Runway.id r
    /\ Runway.status r' = FREE
    /\ Runway.current_flight r' = None.
Proof.
  intros Hfl Hst Hrw Hgate.
  pose proof (list_find_of_is_first _ _ _ _ Hrw) as Hfind.
  destruct Hrw as (Hk & Hrid & _).
  pose proof (lookup_lt_Some _ _ _ Hk) as Hklen.
  assert (Hid : Flight.id fl = flight_id) by apply Hfl.
  set (fl3 := Flight.with_runway_id None (Flight.with_status AIRBORNE fl)).
  set (r' := Runway.mk (Runway.name r) (Runway.length_m r) FREE None (Runway.id r)).
  set (a3 := after_runway_release a i fl).
  assert (Ha3 : a3 = Airport.mk (Airport.name a) (Airport.gates a)
                       (<[k := r']> (Airport.runways a))
                       (<[i := fl3]> (Airport.flights a))).
  { unfold a3, after_runway_release. by rewrite Hfind. }
  assert (Hfl3 : the_flight a3 flight_id i fl3).
  { eapply the_flight_insert; [exact Hfl|done|]. by rewrite Ha3. }
  assert (Hdep : Airport.depart flight_id a = Airport.release_gate flight_id a3).
  { rewrite (depart_eq _ _ _ _ Hfl). rewrite <- Hrid.
    by destruct Hst as [-> | ->]. }
  rewrite Hdep, (release_gate_eq _ _ _ _ Hfl3).
  destruct (Flight.gate_id fl3) as [gid|] eqn:Hgid.
  - destruct (Hgate gid Hgid) as (j & g & Hj & Hg).
    destruct (list_find (fun g => Some (Gate.id g) = Some gid) (Airport.gates a3))
      as [[j' g']|] eqn:Hgfind.
    + eexists _, (Flight.with_gate_id None fl3), r'.
      split; [reflexivity|]. split.
      { eapply the_flight_insert; [exact Hfl3|done|done]. }
      repeat split; try done.
      simpl. rewrite Ha3. simpl. by apply list_lookup_insert_eq.
    + apply list_find_None in Hgfind. rewrite Forall_forall in Hgfind.
      destruct (Hgfind g); [|by rewrite Hg].
      rewrite Ha3. simpl. by eapply list_elem_of_lookup_2.
  - exists a3, fl3, r'. repeat split; try done; try apply Hfl3.
    rewrite Ha3. simpl. by apply list_lookup_insert_eq.
Qed.

Lemma depart_releases_resources_witness :
  exists (a' : Airport.t) (fl' : Flight.t) (r' : Runway.t),
    Airport.depart 1 demo_before_departure = (Ok tt, a')
    /\ the_flight a' 1 0 fl'
    /\ Flight.status fl' = AIRBORNE
    /\ Flight.runway_id fl' = None
    /\ Flight.gate_id fl' = None
    /\ Airport.runways a' !! 0%nat = Some r'
    /\ Runway.id r' = 1
    /\ Runway.status r' = FREE
    /\ Runway.current_flight r' = None.
Proof.
  eapply (depart_releases_resources demo_before_departure 1 0 _ 0
            (Runway.mk "09L/27R" 3800 IN_USE (Some 1) 1)).
  - split; [reflexivity|]. split; [reflexivity|]. intros j y _ Hj. lia.
  - right. reflexivity.
  - split; [reflexivity|]. split; [reflexivity|]. intros j y _ Hj. lia.
  - intros gid Hgid. exists 0%nat, (Gate.mk "A1" (Finite 60) (Some 1) 1).
    split; [reflexivity|]. simpl in Hgid. by injection Hgid.
Defined.

(** A [READY] flight that holds runway 1 and was constructed with a
    gate reference, 9, that is the id of no gate of the airport:
    [depart] returns and releases the runway, but the gate reference is
    still 9 afterwards. *)
Lemma depart_keeps_unmatched_gate_reference :
  the_flight dangling_gate_airport 1 0 dangling_gate_flight
  /\ Flight.status dangling_gate_flight = READY
  /\ holds_runway dangling_gate_airport dangling_gate_flight 0 held_runway_L
  /\ Runway.current_flight held_runway_L = Some (Flight.id dangling_gate_flight)
  /\ Airport.depart 1 dangling_gate_airport =
       (Ok tt,
        Airport.mk "Demo International" [demo_gate_A1; demo_gate_A2]
          [demo_runway_L; demo_runway_R]
          [Flight.with_runway_id None
             (Flight.with_status AIRBORNE dangling_gate_flight); demo_f2])
  /\ Flight.gate_id <$>
       Airport.flights (state (Airport.depart 1 dangling_gate_airport)) !! 0%nat
     = Some (Some 9)
  /\ ~ (Flight.gate_id <$>
          Airport.flights (state (Airport.depart 1 dangling_gate_airport)) !! 0%nat
        = Some None).
Proof.
  split; [split; [reflexivity|]; split; [reflexivity|]; intros j y _ Hj; lia|].
  split; [reflexivity|].
  split; [split; [reflexivity|]; split; [reflexivity|]; intros j y _ Hj; lia|].
  split; [reflexivity|]. split; [reflexivity|]. split; [reflexivity|].
  discriminate.
Qed.

(** ** Failures *)

Lemma gate_assign_eq (flight_id : Z) (g : Gate.t) :
  Gate.assign flight_id g =
  if Gate.is_free g
  then (Ok tt, Gate.with_occupied_by (Some flight_id) g)
  else (Raise (mkExc ValueError ("Gate " +:+ Gate.name g +:+ " ist belegt.")), g).
Proof. unfold Gate.assign. run. by destruct (Gate.is_free g). Qed.

(** C3, as the code has it. Each of the five failures is raised to the
    caller and leaves the object or the airport it was called on
    unchanged, but none of them has a class of its own: a direct
    [assign] on an occupied gate, a direct [occupy] of an unavailable
    runway, boarding on an aircraft that is not a passenger aircraft, an
    operation called in an illegal status ([board_passengers], [depart],
    [arrive]) and a departure without a runway all raise the built-in
    [ValueError], which is outside the [AirportError] hierarchy; they
    differ in their message only. *)
Theorem failures_raise_ValueError :
  (forall (g : Gate.t) (flight_id : Z),
     Gate.is_free g = false ->
     Gate.assign flight_id g =
       (Raise (mkExc ValueError ("Gate " +:+ Gate.name g +:+ " ist belegt.")), g))
  /\ (forall (r : Runway.t) (flight_id : Z),
        Runway.is_available r = false ->
        Runway.occupy flight_id r =
          (Raise (mkExc ValueError
                    ("Piste " +:+ Runway.name r +:+ " nicht verfügbar.")), r))
  /\ (forall (f : Flight.t) (count : Z),
        Aircraft.is_passenger (Flight.aircraft f) = false ->
        Flight.board_passengers count f =
          (Raise (mkExc ValueError
                    "Nur Passagiermaschinen können Passagiere boarden."), f))
  /\ (forall (f : Flight.t) (count : Z),
        Aircraft.is_passenger (Flight.aircraft f) = true ->
        Flight.status f <> BOARDING -> Flight.status f <> PLANNED ->
        Flight.board_passengers count f =
          (Raise (mkExc ValueError
                    ("Boarding nicht möglich im Status "
                     +:+ FlightStatus_name (Flight.status f))), f))
  /\ (forall (a : Airport.t) (flight_id : Z) (i : nat) (fl : Flight.t),
        the_flight a flight_id i fl ->
        Flight.status fl <> READY -> Flight.status fl <> TAXI ->
        Airport.depart flight_id a =
          (Raise (mkExc ValueError "Flug nicht abflugbereit."), a))
  /\ (forall (a : Airport.t) (flight_id : Z) (i : nat) (fl : Flight.t),
        the_flight a flight_id i fl ->
        Flight.status fl <> AIRBORNE ->
        Airport.arrive flight_id a =
          (Raise (mkExc ValueError "Flug nicht in der Luft."), a))
  /\ (forall (a : Airport.t) (flight_id : Z) (i : nat) (fl : Flight.t),
        the_flight a flight_id i fl ->
        Flight.status fl = READY \/ Flight.status fl = TAXI ->
        Flight.runway_id fl = None ->
        Airport.depart flight_id a =
          (Raise (mkExc ValueError "Keine Piste zugewiesen."), a))
  /\ is_AirportError ValueError = false.
Proof.
  repeat apply conj.
  - intros g flight_id Hfree. by rewrite gate_assign_eq, Hfree.
  - intros r flight_id Hav. by apply runway_occupy_unavailable.
  - intros f count Hpass. by rewrite board_passengers_eq, Hpass.
  - intros f count Hpass Hb Hp. rewrite board_passengers_eq, Hpass. simpl.
    by destruct (Flight.status f).
  - intros a flight_id i fl Hfl Hr Ht. rewrite (depart_eq _ _ _ _ Hfl).
    by destruct (Flight.status fl).
  - intros a flight_id i fl Hfl Hst. rewrite (arrive_eq _ _ _ _ Hfl).
    by rewrite bool_decide_eq_false_2.
  - intros a flight_id i fl Hfl Hst Hrid. rewrite (depart_eq _ _ _ _ Hfl), Hrid.
    by destruct Hst as [-> | ->].
  - reflexivity.
Qed.

Lemma failures_raise_ValueError_witness :
  Gate.assign 2 occupied_gate =
    (Raise (mkExc ValueError "Gate A1 ist belegt."), occupied_gate)
  /\ Runway.occupy 2 maintenance_runway =
       (Raise (mkExc ValueError "Piste 09L/27R nicht verfügbar."),
        maintenance_runway)
  /\ Flight.board_passengers 1 demo_f2 =
       (Raise (mkExc ValueError
                 "Nur Passagiermaschinen können Passagiere boarden."), demo_f2)
  /\ Flight.board_passengers 1 boarded_f1 =
       (Raise (mkExc ValueError "Boarding nicht möglich im Status READY"),
        boarded_f1)
  /\ Airport.depart 1 build_demo_airport =
       (Raise (mkExc ValueError "Flug nicht abflugbereit."), build_demo_airport)
  /\ Airport.arrive 1 build_demo_airport =
       (Raise (mkExc ValueError "Flug nicht in der Luft."), build_demo_airport)
  /\ Airport.depart 1 boarded_airport =
       (Raise (mkExc ValueError "Keine Piste zugewiesen."), boarded_airport).
Proof.
  destruct failures_raise_ValueError
    as (Hgate & Hrunway & Hcargo & Hboard & Hdepart & Harrive & Hnorunway & _).
  assert (Hdemo : the_flight build_demo_airport 1 0 demo_f1).
  { split; [reflexivity|]. split; [reflexivity|]. intros j y _ Hj. lia. }
  assert (Hboarded : the_flight boarded_airport 1 0 boarded_f1).
  { split; [reflexivity|]. split; [reflexivity|]. intros j y _ Hj. lia. }
  split; [apply (Hgate occupied_gate 2); reflexivity|].
  split; [apply (Hrunway maintenance_runway 2); reflexivity|].
  split; [apply (Hcargo demo_f2 1); reflexivity|].
  split; [apply (Hboard boarded_f1 1); [reflexivity|discriminate..]|].
  split; [apply (Hdepart _ _ _ _ Hdemo); discriminate|].
  split; [apply (Harrive _ _ _ _ Hdemo); discriminate|].
  apply (Hnorunway _ _ _ _ Hboarded); [left|]; reflexivity.
Defined.

(** The five failures, each at a concrete input, raise exceptions of one
    and the same class, so the class does not tell them apart, and that
    class is not one of the airport's own. *)
Lemma failures_share_one_class :
  exists e1 e2 e3 e4 e5 : Exc,
    outcome (Gate.assign 2 occupied_gate) = Raise e1
    /\ outcome (Runway.occupy 2 maintenance_runway) = Raise e2
    /\ outcome (Flight.board_passengers 1 demo_f2) = Raise e3
    /\ outcome (Airport.arrive 1 build_demo_airport) = Raise e4
    /\ outcome (Airport.depart 1 boarded_airport) = Raise e5
    /\ exc_class e1 = exc_class e2
    /\ exc_class e2 = exc_class e3
    /\ exc_class e3 = exc_class e4
    /\ exc_class e4 = exc_class e5
    /\ exc_class e5 = ValueError
    /\ is_AirportError (exc_class e5) = false.
Proof. do 5 eexists. by repeat split. Qed.

(** ** Airport: gate assignment *)

(** C4. For a registered flight, [assign_gate] assigns the first free
    gate in list order: it returns that gate, marks it occupied by the
    flight and records its id on the flight.  When no gate is free it
    raises [GateNotAvailableError] and changes nothing, so a gate
    reference that was unset remains unset.  With no gates registered
    before and two free gates added, A1 and then A2, the call returns
    A1. *)
Theorem assign_gate_first_fit (a : Airport.t) (flight_id : Z) (i : nat) (fl : Flight.t) :
  the_flight a flight_id i fl ->
  (forall (j : nat) (g : Gate.t),
     is_first (fun g => Gate.is_free g = true) (Airport.gates a) j g ->
     Airport.assign_gate flight_id a =
       (Ok j,
        Airport.mk (Airport.name a)
          (<[j := Gate.with_occupied_by (Some flight_id) g]> (Airport.gates a))
          (Airport.runways a)
          (<[i := Flight.with_gate_id (Some (Gate.id g)) fl]> (Airport.flights a))))
  /\ (Forall (fun g => Gate.is_free g = false) (Airport.gates a) ->
        Airport.assign_gate flight_id a =
          (Raise (mkExc GateNotAvailableError "Kein Gate frei."), a)
        /\ (Flight.gate_id fl = None ->
              Flight.gate_id <$>
                Airport.flights (state (Airport.assign_gate flight_id a)) !! i
              = Some None))
  /\ (forall A1 A2 : Gate.t,
        Airport.gates a = [] ->
        Gate.is_free A1 = true -> Gate.is_free A2 = true ->
        exists a' : Airport.t,
          (Airport.add_gate A1 ;;; Airport.add_gate A2 ;;;
           Airport.assign_gate flight_id) a = (Ok 0%nat, a')
          /\ Airport.gates a' = [Gate.with_occupied_by (Some flight_id) A1; A2]
          /\ Flight.gate_id <$> Airport.flights a' !! i = Some (Some (Gate.id A1))).
Proof.
  intros Hfl.
  pose proof (is_first_lookup _ _ _ _ Hfl) as Hi.
  split; [|split].
  - intros j g Hg. rewrite (assign_gate_eq _ _ _ _ Hfl).
    by rewrite (list_find_of_is_first _ _ _ _ Hg).
  - intros Hnone.
    assert (Hfind : list_find (fun g => Gate.is_free g = true) (Airport.gates a) = None).
    { apply list_find_None. eapply Forall_impl; [exact Hnone|].
      intros g Hg. by rewrite Hg. }
    rewrite (assign_gate_eq _ _ _ _ Hfl), Hfind. split; [done|].
    intros Hunset. unfold state; simpl. by rewrite Hi; simpl; rewrite Hunset.
  - intros A1 A2 Hempty HA1 HA2.
    set (a2 := Airport.with_gates [A1; A2] a).
    assert (Hfl2 : the_flight a2 flight_id i fl) by exact Hfl.
    assert (Hrun : (Airport.add_gate A1 ;;; Airport.add_gate A2 ;;;
                    Airport.assign_gate flight_id) a
                   = Airport.assign_gate flight_id a2).
    { unfold Airport.add_gate. run. by rewrite Hempty. }
    rewrite Hrun, (assign_gate_eq _ _ _ _ Hfl2). simpl.
    rewrite decide_True by done. simpl.
    eexists. split; [reflexivity|]. split; [done|]. simpl.
    rewrite list_lookup_insert_eq by (by eapply lookup_lt_Some). done.
Qed.

Lemma assign_gate_first_fit_witness :
  Airport.assign_gate 1 build_demo_airport =
    (Ok 0%nat,
     Airport.mk "Demo International"
       [Gate.with_occupied_by (Some 1) demo_gate_A1; demo_gate_A2]
       [demo_runway_L; demo_runway_R]
       [Flight.with_gate_id (Some 1) demo_f1; demo_f2])
  /\ Airport.assign_gate 2 (state (Airport.assign_gate 1
        (state (Airport.assign_gate 1 build_demo_airport)))) =
       (Raise (mkExc GateNotAvailableError "Kein Gate frei."),
        state (Airport.assign_gate 1
          (state (Airport.assign_gate 1 build_demo_airport)))).
Proof.
  split.
  - assert (Hfl : the_flight build_demo_airport 1 0 demo_f1).
    { split; [reflexivity|]. split; [reflexivity|]. intros j y _ Hj. lia. }
    apply (proj1 (assign_gate_first_fit build_demo_airport 1 0 demo_f1 Hfl)
             0%nat demo_gate_A1).
    split; [reflexivity|]. split; [reflexivity|]. intros j y _ Hj. lia.
  - set (a2 := state (Airport.assign_gate 1
                 (state (Airport.assign_gate 1 build_demo_airport)))).
    assert (Hfl2 : the_flight a2 2 1 demo_f2).
    { split; [reflexivity|]. split; [reflexivity|].
      intros j y Hy Hj. assert (j = 0%nat) as -> by lia.
      simpl in Hy. injection Hy as <-. discriminate. }
    apply (proj1 (proj2 (assign_gate_first_fit a2 2 1 demo_f2 Hfl2))).
    repeat constructor.
Defined.

(** ** Airport: a second gate for the same flight *)

Lemma gate_ids_insert (l : list Gate.t) (j : nat) (g g' : Gate.t) :
  l !! j = Some g -> Gate.id g' = Gate.id g ->
  Gate.id <$> <[j := g']> l = Gate.id <$> l.
Proof.
  intros Hj Hid. rewrite list_fmap_insert, Hid.
  apply list_insert_id. by rewrite list_lookup_fmap, Hj.
Qed.

Lemma unique_ids_same_position (l : list Gate.t) (j k : nat) (g G : Gate.t) :
  NoDup (Gate.id <$> l) ->
  l !! j = Some g -> l !! k = Some G -> Gate.id g = Gate.id G -> j = k.
Proof.
  intros Hnd Hj Hk Hid.
  apply (NoDup_lookup _ j k (Gate.id G) Hnd).
  - by rewrite list_lookup_fmap, Hj; simpl; rewrite Hid.
  - by rewrite list_lookup_fmap, Hk.
Qed.

Lemma out_of_reach_assign (flight_id : Z) (i k : nat) (G : Gate.t) (a : Airport.t) :
  Gate.is_free G = false ->
  out_of_reach flight_id i k G a ->
  out_of_reach flight_id i k G (state (Airport.assign_gate flight_id a)).
Proof.
  intros Hocc (Huniq & Hk & fl & Hfl & Hne).
  rewrite (assign_gate_eq _ _ _ _ Hfl).
  destruct (list_find _ _) as [[j g]|] eqn:Hfind; unfold state; simpl;
    [|by split; [|split; [|exists fl]]].
  pose proof (is_first_of_list_find _ _ _ _ Hfind) as (Hj & Hfree & _).
  assert (Hjk : j <> k).
  { intros ->. rewrite Hk in Hj. injection Hj as ->. by rewrite Hfree in Hocc. }
  split; [|split].
  - unfold gate_ids_unique. simpl. by rewrite (gate_ids_insert _ _ g).
  - simpl. by rewrite list_lookup_insert_ne.
  - exists (Flight.with_gate_id (Some (Gate.id g)) fl). split.
    + eapply the_flight_insert; [exact Hfl|apply Hfl|done].
    + simpl. intros [= Hid]. apply Hjk.
      by eapply unique_ids_same_position.
Qed.

Lemma out_of_reach_release (flight_id : Z) (i k : nat) (G : Gate.t) (a : Airport.t) :
  out_of_reach flight_id i k G a ->
  out_of_reach flight_id i k G (state (Airport.release_gate flight_id a)).
Proof.
  intros (Huniq & Hk & fl & Hfl & Hne).
  rewrite (release_gate_eq _ _ _ _ Hfl).
  destruct (Flight.gate_id fl) as [gid|] eqn:Hgid; unfold state; simpl;
    [|by split; [|split; [|exists fl; rewrite Hgid]]].
  destruct (list_find _ _) as [[j g]|] eqn:Hfind; simpl;
    [|by split; [|split; [|exists fl; rewrite Hgid]]].
  pose proof (is_first_of_list_find _ _ _ _ Hfind) as (Hj & [= Hid] & _).
  assert (Hjk : j <> k).
  { intros ->. rewrite Hk in Hj. injection Hj as ->. by rewrite Hid in Hne. }
  split; [|split].
  - unfold gate_ids_unique. simpl. by rewrite (gate_ids_insert _ _ g).
  - simpl. by rewrite list_lookup_insert_ne.
  - exists (Flight.with_gate_id None fl). split; [|done].
    eapply the_flight_insert; [exact Hfl|apply Hfl|done].
Qed.

Lemma out_of_reach_calls (flight_id : Z) (i k : nat) (G : Gate.t)
    (cs : list gate_call) (a : Airport.t) :
  Gate.is_free G = false ->
  out_of_reach flight_id i k G a ->
  out_of_reach flight_id i k G (do_gate_calls flight_id cs a).
Proof.
  intros Hocc. revert a. induction cs as [|c cs IH]; intros a Ha; [done|].
  apply IH. destruct c; simpl.
  - by apply out_of_reach_assign.
  - by apply out_of_reach_release.
Qed.

(** C10. In an airport state with pairwise distinct gate ids where the
    flight already holds gate [G] ([G] is occupied by the flight and the
    flight's gate reference is the id of [G]) and some gate is free, a
    second [assign_gate] for the flight returns the first free gate
    [G'], which is another gate than [G]; the flight's gate reference
    becomes the id of [G'], and [G] is still occupied by the flight.
    [release_gate] for the flight then returns and clears the reference
    while [G] stays occupied, and so it stays through any further
    sequence of [assign_gate] and [release_gate] calls for that
    flight. *)
Theorem second_assign_gate_strands_first
    (a : Airport.t) (flight_id : Z) (i : nat) (fl : Flight.t)
    (k : nat) (G : Gate.t) (j0 : nat) (G0 : Gate.t) :
  gate_ids_unique a ->
  the_flight a flight_id i fl ->
  Airport.gates a !! k = Some G ->
  Gate.occupied_by G = Some flight_id ->
  Flight.gate_id fl = Some (Gate.id G) ->
  Airport.gates a !! j0 = Some G0 ->
  Gate.is_free G0 = true ->
  exists (j : nat) (G' : Gate.t) (a' : Airport.t) (fl' : Flight.t),
    is_first (fun g => Gate.is_free g = true) (Airport.gates a) j G'
    /\ Airport.assign_gate flight_id a = (Ok j, a')
    /\ j <> k
    /\ Gate.id G' <> Gate.id G
    /\ the_flight a' flight_id i fl'
    /\ Flight.gate_id fl' = Some (Gate.id G')
    /\ Airport.gates a' !! j = Some (Gate.with_occupied_by (Some flight_id) G')
    /\ Airport.gates a' !! k = Some G
    /\ (exists (a'' : Airport.t) (fl'' : Flight.t),
          Airport.release_gate flight_id a' = (Ok tt, a'')
          /\ the_flight a'' flight_id i fl''
          /\ Flight.gate_id fl'' = None
          /\ Airport.gates a'' !! k = Some G
          /\ Airport.release_gate flight_id a'' = (Ok tt, a''))
    /\ (forall cs : list gate_call,
          Airport.gates (do_gate_calls flight_id cs a') !! k = Some G).
Proof.
  intros Huniq Hfl Hk Hocc Hgid Hj0 Hfree0.
  assert (HGocc : Gate.is_free G = false) by (unfold Gate.is_free; by rewrite Hocc).
  assert (Hid : Flight.id fl = flight_id) by apply Hfl.
  destruct (list_find (fun g => Gate.is_free g = true) (Airport.gates a))
    as [[j G']|] eqn:Hfind.
  2:{ apply list_find_None in Hfind. rewrite Forall_forall in Hfind.
      destruct (Hfind G0); [|done]. by eapply list_elem_of_lookup_2. }
  pose proof (is_first_of_list_find _ _ _ _ Hfind) as Hfirst.
  destruct Hfirst as (Hj & Hfree & Hmin).
  assert (Hjk : j <> k).
  { intros ->. rewrite Hk in Hj. injection Hj as ->. by rewrite Hfree in HGocc. }
  assert (Hids : Gate.id G' <> Gate.id G).
  { intros Heq. apply Hjk. by eapply unique_ids_same_position. }
  set (fl' := Flight.with_gate_id (Some (Gate.id G')) fl).
  set (a' := Airport.mk (Airport.name a)
               (<[j := Gate.with_occupied_by (Some flight_id) G']> (Airport.gates a))
               (Airport.runways a) (<[i := fl']> (Airport.flights a))).
  assert (Hassign : Airport.assign_gate flight_id a = (Ok j, a')).
  { by rewrite (assign_gate_eq _ _ _ _ Hfl), Hfind. }
  assert (Hfl' : the_flight a' flight_id i fl').
  { eapply the_flight_insert; [exact Hfl|exact Hid|done]. }
  assert (Hj' : Airport.gates a' !! j
                = Some (Gate.with_occupied_by (Some flight_id) G')).
  { simpl. apply list_lookup_insert_eq. by eapply lookup_lt_Some. }
  assert (Hk' : Airport.gates a' !! k = Some G).
  { simpl. by rewrite list_lookup_insert_ne. }
  assert (Hout : out_of_reach flight_id i k G a').
  { split; [|split; [exact Hk'|]].
    - unfold gate_ids_unique. simpl. by rewrite (gate_ids_insert _ _ G').
    - exists fl'. split; [exact Hfl'|]. simpl. by intros [= Heq]. }
  exists j, G', a', fl'.
  do 8 (split; [done|]). split.
  - destruct (list_find (fun g => Some (Gate.id g) = Some (Gate.id G'))
                (Airport.gates a')) as [[j' g']|] eqn:Hfind'.
    2:{ apply list_find_None in Hfind'. rewrite Forall_forall in Hfind'.
        destruct (Hfind' (Gate.with_occupied_by (Some flight_id) G')); [|done].
        by eapply list_elem_of_lookup_2. }
    set (fl'' := Flight.with_gate_id None fl').
    set (a'' := Airport.mk (Airport.name a')
                  (<[j' := Gate.with_occupied_by None g']> (Airport.gates a'))
                  (Airport.runways a') (<[i := fl'']> (Airport.flights a'))).
    assert (Hrel : Airport.release_gate flight_id a' = (Ok tt, a'')).
    { rewrite (release_gate_eq _ _ _ _ Hfl').
      change (Flight.gate_id fl') with (Some (Gate.id G')). cbv beta iota.
      by rewrite Hfind'. }
    assert (Hfl'' : the_flight a'' flight_id i fl'').
    { eapply the_flight_insert; [exact Hfl'|exact Hid|done]. }
    pose proof (out_of_reach_release _ _ _ _ _ Hout) as (_ & Hk'' & _).
    rewrite Hrel in Hk''.
    exists a'', fl''. split; [exact Hrel|]. split; [exact Hfl''|].
    split; [done|]. split; [exact Hk''|].
    by rewrite (release_gate_eq _ _ _ _ Hfl'').
  - intros cs. by apply (out_of_reach_calls flight_id i k G cs a' HGocc Hout).
Qed.

Lemma second_assign_gate_strands_first_witness :
  exists (j : nat) (G' : Gate.t) (a' : Airport.t) (fl' : Flight.t),
    is_first (fun g => Gate.is_free g = true)
      (Airport.gates demo_after_first_gate) j G'
    /\ Airport.assign_gate 1 demo_after_first_gate = (Ok j, a')
    /\ j <> 0%nat
    /\ Gate.id G' <> 1
    /\ the_flight a' 1 0 fl'
    /\ Flight.gate_id fl' = Some (Gate.id G')
    /\ Airport.gates a' !! j = Some (Gate.with_occupied_by (Some 1) G')
    /\ Airport.gates a' !! 0%nat = Some occupied_gate
    /\ (exists (a'' : Airport.t) (fl'' : Flight.t),
          Airport.release_gate 1 a' = (Ok tt, a'')
          /\ the_flight a'' 1 0 fl''
          /\ Flight.gate_id fl'' = None
          /\ Airport.gates a'' !! 0%nat = Some occupied_gate
          /\ Airport.release_gate 1 a'' = (Ok tt, a''))
    /\ (forall cs : list gate_call,
          Airport.gates (do_gate_calls 1 cs a') !! 0%nat = Some occupied_gate).
Proof.
  apply (second_assign_gate_strands_first demo_after_first_gate 1 0
           (Flight.with_gate_id (Some 1) demo_f1) 0 occupied_gate 1 demo_gate_A2).
  - unfold gate_ids_unique. simpl. apply NoDup_cons. split.
    + intros Hin. apply list_elem_of_singleton in Hin. discriminate.
    + apply NoDup_singleton.
  - split; [reflexivity|]. split; [reflexivity|]. intros j y _ Hj. lia.
  - reflexivity.
  - reflexivity.
  - reflexivity.
  - reflexivity.
  - reflexivity.
Defined.

(** ** Referential integrity of gate references

    The condition on the gate reference under which the departure
    property is stated is an invariant of the airport: it holds with no
    flights, and every operation of [Airport] keeps it, provided flights
    are added without a gate reference, as [Flight]'s default has it. *)

Lemma gate_ref_ok_ids (a : Airport.t) (fl : Flight.t) :
  gate_ref_ok a fl <->
  forall gid, Flight.gate_id fl = Some gid -> gid ∈ Gate.id <$> Airport.gates a.
Proof.
  unfold gate_ref_ok. split; intros H gid Hgid.
  - destruct (H gid Hgid) as (j & g & Hj & <-).
    apply list_elem_of_fmap_2. by eapply list_elem_of_lookup_2.
  - pose proof (H gid Hgid) as Hin.
    apply list_elem_of_fmap in Hin as (g & -> & Hg).
    apply list_elem_of_lookup in Hg as [j Hj]. by exists j, g.
Qed.

Lemma gate_refs_ok_lookup (a : Airport.t) (i : nat) (fl : Flight.t) :
  gate_refs_ok a -> Airport.flights a !! i = Some fl ->
  forall gid, Flight.gate_id fl = Some gid -> gid ∈ Gate.id <$> Airport.gates a.
Proof. intros Hok Hi. by apply gate_ref_ok_ids, (Hok i). Qed.

Lemma gate_refs_ok_step (a a' : Airport.t) (i : nat) (fl' : Flight.t) :
  gate_refs_ok a ->
  Gate.id <$> Airport.gates a' = Gate.id <$> Airport.gates a ->
  Airport.flights a' = <[i := fl']> (Airport.flights a) ->
  (forall gid, Flight.gate_id fl' = Some gid -> gid ∈ Gate.id <$> Airport.gates a) ->
  gate_refs_ok a'.
Proof.
  intros Hok Hids Hfls Hfl' n fl Hn. apply gate_ref_ok_ids. rewrite Hids.
  rewrite Hfls in Hn. destruct (decide (i = n)) as [->|Hne].
  - apply list_lookup_insert_Some in Hn as [(_ & <- & _)|[? _]]; done.
  - rewrite list_lookup_insert_ne in Hn by done.
    by apply gate_ref_ok_ids, (Hok n).
Qed.

Lemma find_flight_cases (a : Airport.t) (flight_id : Z) :
  (exists i fl, the_flight a flight_id i fl)
  \/ Airport.find_flight flight_id a =
     (Raise (mkExc FlightNotFoundError
               ("Flug " +:+ pretty flight_id +:+ " nicht gefunden.")), a).
Proof.
  destruct (list_find (fun f => Flight.id f = flight_id) (Airport.flights a))
    as [[i fl]|] eqn:Hfind.
  - left. exists i, fl. exact (is_first_of_list_find _ _ _ _ Hfind).
  - right. apply find_flight_missing.
    exact (proj1 (list_find_None _ _) Hfind).
Qed.

(** What [assign_runway_for_departure] does once the flight is found. *)
Lemma assign_runway_eq (a : Airport.t) (flight_id : Z) (i : nat) (fl : Flight.t) :
  the_flight a flight_id i fl ->
  Airport.assign_runway_for_departure flight_id a =
  match list_find (fun r => Runway.is_available r = true) (Airport.runways a) with
  | Some (k, r) =>
      (Ok k,
       Airport.mk (Airport.name a) (Airport.gates a)
         (<[k := Runway.mk (Runway.name r) (Runway.length_m r) IN_USE
                   (Some flight_id) (Runway.id r)]> (Airport.runways a))
         (<[i := Flight.with_status TAXI
                   (Flight.with_runway_id (Some (Runway.id r)) fl)]>
            (Airport.flights a)))
  | None => (Raise (mkExc RunwayNotAvailableError "Keine Piste frei."), a)
  end.
Proof.
  intros Hfl.
  pose proof (lookup_lt_Some _ _ _ (is_first_lookup _ _ _ _ Hfl)) as Hlen.
  unfold Airport.assign_runway_for_departure, bind at 1.
  rewrite (find_flight_found _ _ _ _ Hfl).
  run. destruct (list_find _ _) as [[k r]|] eqn:Hfind; [|done].
  pose proof (is_first_of_list_find _ _ _ _ Hfind) as (Hk & Hav & _).
  pose proof (lookup_lt_Some _ _ _ Hk) as Hklen.
  unfold Airport.on_runway, Airport.get_runway, Airport.on_flight, Flight.set_status.
  run. rewrite (list_lookup_total_correct _ _ _ Hk).
  rewrite (runway_occupy_available _ _ Hav). simpl.
  rewrite list_lookup_total_insert_eq by done. simpl.
  rewrite (is_first_total _ _ _ _ Hfl).
  rewrite list_lookup_total_insert_eq by done.
  by rewrite list_insert_insert_eq.
Qed.

Lemma gate_refs_ok_empty (name : string) :
  gate_refs_ok (Airport.mk name [] [] []).
Proof. intros i fl Hi. simpl in Hi. by rewrite lookup_nil in Hi. Qed.

Lemma gate_refs_ok_add_gate (a : Airport.t) (gate : Gate.t) :
  gate_refs_ok a -> gate_refs_ok (state (Airport.add_gate gate a)).
Proof.
  intros Hok i fl Hi gid Hgid.
  destruct (Hok i fl Hi gid Hgid) as (j & g & Hj & Hg).
  exists j, g. split; [|done]. simpl. by apply lookup_app_l_Some.
Qed.

Lemma gate_refs_ok_add_runway (a : Airport.t) (runway : Runway.t) :
  gate_refs_ok a -> gate_refs_ok (state (Airport.add_runway runway a)).
Proof. intros Hok i fl Hi. exact (Hok i fl Hi). Qed.

Lemma gate_refs_ok_add_flight (a : Airport.t) (flight : Flight.t) :
  gate_refs_ok a -> Flight.gate_id flight = None ->
  gate_refs_ok (state (Airport.add_flight flight a)).
Proof.
  intros Hok Hnone i fl Hi. simpl in Hi.
  apply lookup_app_Some in Hi as [Hi|[_ Hi]]; [exact (Hok i fl Hi)|].
  apply list_lookup_singleton_Some in Hi as [_ <-].
  intros gid Hgid. by rewrite Hnone in Hgid.
Qed.

Lemma gate_refs_ok_assign_gate (a : Airport.t) (flight_id : Z) :
  gate_refs_ok a -> gate_refs_ok (state (Airport.assign_gate flight_id a)).
Proof.
  intros Hok. destruct (find_flight_cases a flight_id) as [(i & fl & Hfl)|Hraise].
  2:{ unfold Airport.assign_gate, bind at 1. by rewrite Hraise. }
  rewrite (assign_gate_eq _ _ _ _ Hfl).
  destruct (list_find _ _) as [[j g]|] eqn:Hfind; [|done].
  pose proof (is_first_of_list_find _ _ _ _ Hfind) as (Hj & _ & _).
  eapply (gate_refs_ok_step a _ i); [exact Hok| |reflexivity|].
  - simpl. by rewrite (gate_ids_insert _ _ g).
  - intros gid [= <-]. apply list_elem_of_fmap_2. by eapply list_elem_of_lookup_2.
Qed.

Lemma gate_refs_ok_release_gate (a : Airport.t) (flight_id : Z) :
  gate_refs_ok a -> gate_refs_ok (state (Airport.release_gate flight_id a)).
Proof.
  intros Hok. destruct (find_flight_cases a flight_id) as [(i & fl & Hfl)|Hraise].
  2:{ unfold Airport.release_gate, bind at 1. by rewrite Hraise. }
  rewrite (release_gate_eq _ _ _ _ Hfl).
  destruct (Flight.gate_id fl) as [gid|]; [|done].
  destruct (list_find _ _) as [[j g]|] eqn:Hfind; [|done].
  pose proof (is_first_of_list_find _ _ _ _ Hfind) as (Hj & _ & _).
  eapply (gate_refs_ok_step a _ i); [exact Hok| |reflexivity|done].
  simpl. by rewrite (gate_ids_insert _ _ g).
Qed.

Lemma gate_refs_ok_assign_runway (a : Airport.t) (flight_id : Z) :
  gate_refs_ok a ->
  gate_refs_ok (state (Airport.assign_runway_for_departure flight_id a)).
Proof.
  intros Hok. destruct (find_flight_cases a flight_id) as [(i & fl & Hfl)|Hraise].
  2:{ unfold Airport.assign_runway_for_departure, bind at 1. by rewrite Hraise. }
  rewrite (assign_runway_eq _ _ _ _ Hfl).
  destruct (list_find _ _) as [[k r]|] eqn:Hfind; [|done].
  eapply (gate_refs_ok_step a _ i); [exact Hok|reflexivity|reflexivity|].
  exact (gate_refs_ok_lookup a i fl Hok (is_first_lookup _ _ _ _ Hfl)).
Qed.

Lemma gate_refs_ok_arrive (a : Airport.t) (flight_id : Z) :
  gate_refs_ok a -> gate_refs_ok (state (Airport.arrive flight_id a)).
Proof.
  intros Hok. destruct (find_flight_cases a flight_id) as [(i & fl & Hfl)|Hraise].
  2:{ unfold Airport.arrive, bind at 1. by rewrite Hraise. }
  rewrite (arrive_eq _ _ _ _ Hfl). case_bool_decide; [|done].
  eapply (gate_refs_ok_step a _ i); [exact Hok|reflexivity|reflexivity|].
  exact (gate_refs_ok_lookup a i fl Hok (is_first_lookup _ _ _ _ Hfl)).
Qed.

Lemma gate_refs_ok_depart (a : Airport.t) (flight_id : Z) :
  gate_refs_ok a -> gate_refs_ok (state (Airport.depart flight_id a)).
Proof.
  intros Hok. destruct (find_flight_cases a flight_id) as [(i & fl & Hfl)|Hraise].
  2:{ unfold Airport.depart, bind at 1. by rewrite Hraise. }
  rewrite (depart_eq _ _ _ _ Hfl).
  destruct (negb _); [done|].
  destruct (Flight.runway_id fl) as [rid|]; [|done].
  apply gate_refs_ok_release_gate.
  assert (Hgate : forall gid, Flight.gate_id fl = Some gid ->
                    gid ∈ Gate.id <$> Airport.gates a).
  { exact (gate_refs_ok_lookup a i fl Hok (is_first_lookup _ _ _ _ Hfl)). }
  unfold after_runway_release.
  destruct (list_find _ _) as [[k r]|];
    by eapply (gate_refs_ok_step a _ i); [exact Hok|reflexivity|reflexivity|].
Qed.

(** Methods called on a flight directly leave its gate reference alone. *)
Lemma gate_refs_ok_on_flight (a : Airport.t) (i : nat) (m : M Flight.t unit) :
  (forall f, Flight.gate_id (state (m f)) = Flight.gate_id f) ->
  gate_refs_ok a -> gate_refs_ok (state (Airport.on_flight i m a)).
Proof.
  intros Hm Hok. unfold Airport.on_flight.
  destruct (m (Airport.flights a !!! i)) as [res f'] eqn:Hrun.
  destruct (Airport.flights a !! i) as [fl|] eqn:Hi.
  - eapply (gate_refs_ok_step a _ i); [exact Hok|reflexivity|reflexivity|].
    rewrite (list_lookup_total_correct _ _ _ Hi) in Hrun.
    specialize (Hm fl). rewrite Hrun in Hm. unfold state in Hm. simpl in Hm.
    rewrite Hm. exact (gate_refs_ok_lookup a i fl Hok Hi).
  - unfold state. simpl. intros n fl Hn. simpl in Hn.
    rewrite list_insert_ge in Hn by (by apply lookup_ge_None).
    exact (Hok n fl Hn).
Qed.

Lemma board_passengers_gate_id (count : Z) (f : Flight.t) :
  Flight.gate_id (state (Flight.board_passengers count f)) = Flight.gate_id f.
Proof.
  rewrite board_passengers_eq.
  destruct (negb _); [done|]. destruct (negb _); [done|].
  destruct (Aircraft.capacity _); [|done]. simpl.
  destruct (_ >? _); [done|]. by destruct (_ =? _).
Qed.

Lemma set_status_gate_id (new_status : FlightStatus) (f : Flight.t) :
  Flight.gate_id (state (Flight.set_status new_status f)) = Flight.gate_id f.
Proof. reflexivity. Qed.

(** * Further properties of the code *)

(** ** Gate and runway as exclusive resources *)

(** X1. A free gate accepts an [assign] and records the flight; while it
    is occupied every further [assign], by the same or by another
    flight, raises [ValueError] and keeps the occupant; [release] then
    gives back the gate exactly as it was before the [assign]. *)
Theorem gate_assign_release_cycle (g : Gate.t) (flight_id other : Z) :
  Gate.is_free g = true ->
  let g1 := state (Gate.assign flight_id g) in
  outcome (Gate.assign flight_id g) = Ok tt
  /\ Gate.occupied_by g1 = Some flight_id
  /\ Gate.assign other g1 =
       (Raise (mkExc ValueError ("Gate " +:+ Gate.name g +:+ " ist belegt.")), g1)
  /\ Gate.release g1 = (Ok tt, g).
Proof.
  intros Hfree g1.
  assert (Hg1 : Gate.assign flight_id g
                = (Ok tt, Gate.with_occupied_by (Some flight_id) g)).
  { by rewrite gate_assign_eq, Hfree. }
  unfold g1. rewrite Hg1. unfold state, outcome. simpl.
  split; [done|]. split; [done|]. split.
  - by rewrite gate_assign_eq.
  - destruct g as [n w o gid]. unfold Gate.is_free in Hfree.
    simpl in Hfree. by destruct o.
Qed.

Lemma gate_assign_release_cycle_witness :
  Gate.assign 2 (state (Gate.assign 1 demo_gate_A1)) =
    (Raise (mkExc ValueError "Gate A1 ist belegt."),
     state (Gate.assign 1 demo_gate_A1))
  /\ Gate.release (state (Gate.assign 1 demo_gate_A1)) = (Ok tt, demo_gate_A1).
Proof.
  assert (Hfree : Gate.is_free demo_gate_A1 = true) by reflexivity.
  destruct (gate_assign_release_cycle demo_gate_A1 1 2 Hfree)
    as (_ & _ & Hsecond & Hrelease).
  split; [exact Hsecond | exact Hrelease].
Defined.

(** X2. An available runway accepts an [occupy]; while it is in use
    every further [occupy] raises [ValueError] and changes nothing;
    [release] gives back the runway exactly as it was.  And whatever
    state a runway is in, [MAINTENANCE] included, an [occupy] right
    after a [release] succeeds. *)
Theorem runway_occupy_release_cycle (r : Runway.t) (flight_id other : Z) :
  (Runway.is_available r = true ->
     let r1 := state (Runway.occupy flight_id r) in
     outcome (Runway.occupy flight_id r) = Ok tt
     /\ Runway.status r1 = IN_USE
     /\ Runway.current_flight r1 = Some flight_id
     /\ Runway.occupy other r1 =
          (Raise (mkExc ValueError
                    ("Piste " +:+ Runway.name r +:+ " nicht verfügbar.")), r1)
     /\ Runway.release r1 = (Ok tt, r))
  /\ outcome (Runway.occupy flight_id (state (Runway.release r))) = Ok tt.
Proof.
  split.
  - intros Hav r1. unfold r1. rewrite (runway_occupy_available _ _ Hav).
    unfold state, outcome. cbn [fst snd].
    split; [done|]. split; [done|]. split; [done|]. split.
    + by rewrite runway_occupy_unavailable.
    + rewrite runway_release_eq. cbn [Runway.name Runway.length_m Runway.id].
      destruct r as [n l st cf rid]. unfold Runway.is_available in Hav.
      simpl in *. apply andb_prop in Hav as [Hst Hcf].
      apply bool_decide_eq_true_1 in Hst. subst st. by destruct cf.
  - rewrite runway_release_eq. unfold state, outcome. cbn [fst snd].
    by rewrite runway_occupy_available.
Qed.

Lemma runway_occupy_release_cycle_witness :
  Runway.occupy 2 (state (Runway.occupy 1 demo_runway_L)) =
    (Raise (mkExc ValueError "Piste 09L/27R nicht verfügbar."),
     state (Runway.occupy 1 demo_runway_L))
  /\ Runway.release (state (Runway.occupy 1 demo_runway_L)) = (Ok tt, demo_runway_L)
  /\ outcome (Runway.occupy 1 (state (Runway.release maintenance_runway))) = Ok tt.
Proof.
  assert (Hav : Runway.is_available demo_runway_L = true) by reflexivity.
  destruct (runway_occupy_release_cycle demo_runway_L 1 2) as [Hcycle _].
  destruct (Hcycle Hav) as (_ & _ & _ & Hsecond & Hrelease).
  split; [exact Hsecond|]. split; [exact Hrelease|].
  exact (proj2 (runway_occupy_release_cycle maintenance_runway 1 1)).
Defined.

(** ** Flight: boarding keeps the cabin within capacity *)

Lemma board_passengers_step (count : Z) (f : Flight.t) :
  let f' := state (Flight.board_passengers count f) in
  Flight.aircraft f' = Flight.aircraft f
  /\ Flight.id f' = Flight.id f
  /\ Flight.gate_id f' = Flight.gate_id f
  /\ Flight.runway_id f' = Flight.runway_id f
  /\ (Flight.status f' = Flight.status f \/ Flight.status f' = READY)
  /\ (forall capacity,
        Aircraft.capacity (Flight.aircraft f) = Ok capacity ->
        Flight.passengers_checked_in f <= capacity ->
        Flight.passengers_checked_in f' <= capacity).
Proof.
  intros f'. unfold f'. rewrite board_passengers_eq.
  destruct (negb _); [by repeat split; auto|].
  destruct (negb _); [by repeat split; auto|].
  destruct (Aircraft.capacity _) as [c|e]; [|by repeat split; auto].
  simpl. destruct (_ >? _) eqn:Hgt; [by repeat split; auto|].
  rewrite Z.gtb_ltb in Hgt. apply Z.ltb_ge in Hgt.
  destruct (_ =? _); unfold state; simpl; repeat split; auto;
    intros capacity [= <-] _; done.
Qed.

(** X3. Whatever counts are passed to [board_passengers], one call after
    the other and whether the calls return or raise, a flight that
    starts with at most [capacity] passengers checked in never has more
    than [capacity]; the calls leave the aircraft, the id and the gate
    and runway references alone, and the only status they ever set is
    [READY]. *)
Theorem board_passengers_within_capacity (counts : list Z) (f : Flight.t) (capacity : Z) :
  Aircraft.capacity (Flight.aircraft f) = Ok capacity ->
  Flight.passengers_checked_in f <= capacity ->
  let f' := foldl (fun f count => state (Flight.board_passengers count f)) f counts in
  Flight.passengers_checked_in f' <= capacity
  /\ Flight.aircraft f' = Flight.aircraft f
  /\ Flight.id f' = Flight.id f
  /\ Flight.gate_id f' = Flight.gate_id f
  /\ Flight.runway_id f' = Flight.runway_id f
  /\ (Flight.status f' = Flight.status f \/ Flight.status f' = READY).
Proof.
  revert f. induction counts as [|count counts IH]; intros f Hcap Hle.
  - simpl. repeat split; auto.
  - simpl.
    destruct (board_passengers_step count f) as (Hac & Hid & Hg & Hr & Hst & Hbound).
    set (f1 := state (Flight.board_passengers count f)) in *.
    destruct (IH f1) as (Hle' & Hac' & Hid' & Hg' & Hr' & Hst').
    { by rewrite Hac. }
    { by apply Hbound. }
    repeat split; try congruence.
    destruct Hst' as [Hst'|Hst']; [|by right].
    rewrite Hst'. exact Hst.
Qed.

Lemma board_passengers_within_capacity_witness :
  Flight.passengers_checked_in
    (foldl (fun f count => state (Flight.board_passengers count f))
       demo_f1 [100; 100; 80; 5]) <= 180.
Proof.
  apply (board_passengers_within_capacity [100; 100; 80; 5] demo_f1 180).
  - reflexivity.
  - simpl. lia.
Defined.

(** X4. [can_board] is a sufficient test, not a necessary one: when it
    answers [True], [board_passengers(count)] returns exactly when the
    new total does not exceed the capacity and raises
    [CapacityExceededError] otherwise; but it answers [False] for a
    [PLANNED] flight of a passenger aircraft, on which
    [board_passengers] returns all the same. *)
Theorem can_board_and_boarding (f : Flight.t) (count : Z) :
  (Flight.can_board f = true ->
     exists capacity,
       Aircraft.capacity (Flight.aircraft f) = Ok capacity
       /\ (Flight.passengers_checked_in f + count <= capacity ->
             outcome (Flight.board_passengers count f) = Ok tt)
       /\ (Flight.passengers_checked_in f + count > capacity ->
             Flight.board_passengers count f =
               (Raise (mkExc CapacityExceededError "Kapazität überschritten."), f)))
  /\ (Flight.status f = PLANNED ->
      Aircraft.is_passenger (Flight.aircraft f) = true ->
      Flight.can_board f = false
      /\ exists capacity,
           Aircraft.capacity (Flight.aircraft f) = Ok capacity
           /\ (Flight.passengers_checked_in f + count <= capacity ->
                 outcome (Flight.board_passengers count f) = Ok tt)).
Proof.
  assert (Hboard : forall capacity,
    Aircraft.is_passenger (Flight.aircraft f) = true ->
    Flight.status_in (Flight.status f) [BOARDING; PLANNED] = true ->
    Aircraft.capacity (Flight.aircraft f) = Ok capacity ->
    (Flight.passengers_checked_in f + count <= capacity ->
       outcome (Flight.board_passengers count f) = Ok tt)
    /\ (Flight.passengers_checked_in f + count > capacity ->
          Flight.board_passengers count f =
            (Raise (mkExc CapacityExceededError "Kapazität überschritten."), f))).
  { intros capacity Hpass Hin Hcap.
    rewrite board_passengers_eq, Hpass, Hin, Hcap. simpl.
    rewrite Z.gtb_ltb. split; intros Hc.
    - rewrite (proj2 (Z.ltb_ge _ _)) by lia. by destruct (_ =? _).
    - by rewrite (proj2 (Z.ltb_lt _ _)) by lia. }
  assert (Hcapacity : Aircraft.is_passenger (Flight.aircraft f) = true ->
    exists capacity, Aircraft.capacity (Flight.aircraft f) = Ok capacity).
  { destruct (Flight.aircraft f); [by eexists|done]. }
  split.
  - unfold Flight.can_board. intros Hcan. apply andb_prop in Hcan as [Hst Hpass].
    apply bool_decide_eq_true_1 in Hst.
    destruct (Hcapacity Hpass) as [capacity Hcap]. exists capacity.
    split; [done|]. apply Hboard; [done| |done].
    unfold Flight.status_in. by rewrite Hst.
  - intros Hst Hpass. split.
    + unfold Flight.can_board. by rewrite Hst.
    + destruct (Hcapacity Hpass) as [capacity Hcap]. exists capacity.
      split; [done|]. apply Hboard; [done| |done].
      unfold Flight.status_in. by rewrite Hst.
Qed.

Lemma can_board_and_boarding_witness :
  Flight.can_board demo_f1 = false
  /\ exists capacity,
       Aircraft.capacity (Flight.aircraft demo_f1) = Ok capacity
       /\ (Flight.passengers_checked_in demo_f1 + 100 <= capacity ->
             outcome (Flight.board_passengers 100 demo_f1) = Ok tt).
Proof.
  apply (proj2 (can_board_and_boarding demo_f1 100)); reflexivity.
Defined.

(** ** Schedule: insert, look up, remove *)

Lemma schedule_lookup_cons (k k0 : Z) (f0 : Flight.t) (l : list (Z * Flight.t)) :
  Schedule.lookup k (Schedule.mk ((k0, f0) :: l)) =
  if decide (k0 = k) then Some f0 else Schedule.lookup k (Schedule.mk l).
Proof.
  unfold Schedule.lookup. simpl. destruct (decide (k0 = k)) as [Heq|Hne]; [done|].
  by destruct (list_find _ l) as [[n kv]|].
Qed.

Lemma schedule_lookup_nil (k : Z) : Schedule.lookup k (Schedule.mk []) = None.
Proof. reflexivity. Qed.

Lemma schedule_lookup_snoc (k k1 : Z) (f1 : Flight.t) (l : list (Z * Flight.t)) :
  Schedule.lookup k (Schedule.mk (l ++ [(k1, f1)])) =
  match Schedule.lookup k (Schedule.mk l) with
  | Some f => Some f
  | None => if decide (k1 = k) then Some f1 else None
  end.
Proof.
  induction l as [|[k0 f0] l IH].
  - simpl. rewrite schedule_lookup_cons, !schedule_lookup_nil. done.
  - simpl. rewrite !schedule_lookup_cons. by destruct (decide (k0 = k)).
Qed.

Lemma schedule_lookup_filter (k k1 : Z) (l : list (Z * Flight.t)) :
  Schedule.lookup k (Schedule.mk (filter (fun kv => kv.1 <> k1) l)) =
  if decide (k = k1) then None else Schedule.lookup k (Schedule.mk l).
Proof.
  induction l as [|[k0 f0] l IH].
  - by destruct (decide (k = k1)).
  - rewrite filter_cons. simpl. destruct (decide (k0 <> k1)) as [Hne|Heq].
    + rewrite !schedule_lookup_cons, IH.
      destruct (decide (k0 = k)) as [->|]; [|done].
      by rewrite decide_False.
    + apply dec_stable in Heq. subst k0. rewrite IH, schedule_lookup_cons.
      destruct (decide (k = k1)) as [->|]; [done|]. by rewrite decide_False.
Qed.

Lemma schedule_lookup_None (k : Z) (s : Schedule.t) :
  Schedule.lookup k s = None <-> Schedule.contains k s = false.
Proof.
  pose proof (schedule_contains_lookup k s) as Hiff.
  destruct (Schedule.contains k s), (Schedule.lookup k s) as [f|];
    split; try done.
  - intros _. by destruct (proj1 Hiff eq_refl) as [? [=]].
  - intros _. by pose proof (proj2 Hiff (mk_is_Some _ _ eq_refl)).
Qed.

(** X5. [add_flight] of a flight whose id has no entry returns and files
    the flight under its id at the end of the listing: looking the id up
    gives the flight, and every other id looks up as before. *)
Theorem add_flight_then_lookup (s : Schedule.t) (flight : Flight.t) :
  Schedule.lookup (Flight.id flight) s = None ->
  Schedule.add_flight flight s =
    (Ok tt, Schedule.mk (Schedule.flights s ++ [(Flight.id flight, flight)]))
  /\ Schedule.lookup (Flight.id flight) (state (Schedule.add_flight flight s))
     = Some flight
  /\ (forall k, k <> Flight.id flight ->
        Schedule.lookup k (state (Schedule.add_flight flight s))
        = Schedule.lookup k s)
  /\ Schedule.all (state (Schedule.add_flight flight s))
     = Schedule.all s ++ [flight].
Proof.
  intros Hnone.
  assert (Hadd : Schedule.add_flight flight s =
    (Ok tt, Schedule.mk (Schedule.flights s ++ [(Flight.id flight, flight)]))).
  { unfold Schedule.add_flight. run.
    by rewrite (proj1 (schedule_lookup_None _ _) Hnone). }
  rewrite Hadd. unfold state. cbn [snd]. destruct s as [l].
  cbn [Schedule.flights] in *. split; [done|]. split; [|split].
  - by rewrite schedule_lookup_snoc, Hnone, decide_True.
  - intros k Hk. rewrite schedule_lookup_snoc.
    destruct (Schedule.lookup k (Schedule.mk l)); [done|].
    by rewrite decide_False.
  - unfold Schedule.all. simpl. by rewrite fmap_app.
Qed.

Lemma add_flight_then_lookup_witness :
  Schedule.lookup 2 (state (Schedule.add_flight demo_f2 (Schedule.mk [(1, demo_f1)])))
  = Some demo_f2
  /\ Schedule.all (state (Schedule.add_flight demo_f2 (Schedule.mk [(1, demo_f1)])))
     = [demo_f1; demo_f2].
Proof.
  assert (Hnone : Schedule.lookup (Flight.id demo_f2) (Schedule.mk [(1, demo_f1)]) = None)
    by reflexivity.
  destruct (add_flight_then_lookup (Schedule.mk [(1, demo_f1)]) demo_f2 Hnone)
    as (_ & Hlook & _ & Hall).
  split; [exact Hlook | exact Hall].
Defined.

(** X6. [remove_flight] of an id without an entry raises
    [FlightNotFoundError] and leaves the schedule as it was; of an id
    with an entry it returns, after which the id has no entry and every
    other id looks up as before. *)
Theorem remove_flight_lookup (s : Schedule.t) (flight_id : Z) :
  (Schedule.lookup flight_id s = None ->
     Schedule.remove_flight flight_id s =
       (Raise (mkExc FlightNotFoundError "Flug nicht gefunden."), s))
  /\ (is_Some (Schedule.lookup flight_id s) ->
        outcome (Schedule.remove_flight flight_id s) = Ok tt
        /\ Schedule.lookup flight_id (state (Schedule.remove_flight flight_id s))
           = None
        /\ forall k, k <> flight_id ->
             Schedule.lookup k (state (Schedule.remove_flight flight_id s))
             = Schedule.lookup k s).
Proof.
  split.
  - intros Hnone. unfold Schedule.remove_flight. run.
    by rewrite (proj1 (schedule_lookup_None _ _) Hnone).
  - intros Hsome. apply schedule_contains_lookup in Hsome.
    assert (Hrem : Schedule.remove_flight flight_id s =
      (Ok tt, Schedule.mk (filter (fun kv => kv.1 <> flight_id) (Schedule.flights s)))).
    { unfold Schedule.remove_flight. run. by rewrite Hsome. }
    rewrite Hrem. unfold state, outcome. cbn [fst snd]. destruct s as [l].
    cbn [Schedule.flights]. split; [done|]. split.
    + by rewrite schedule_lookup_filter, decide_True.
    + intros k Hk. by rewrite schedule_lookup_filter, decide_False.
Qed.

Lemma remove_flight_lookup_witness :
  Schedule.remove_flight 3 (Schedule.mk [(1, demo_f1); (2, demo_f2)]) =
    (Raise (mkExc FlightNotFoundError "Flug nicht gefunden."),
     Schedule.mk [(1, demo_f1); (2, demo_f2)])
  /\ Schedule.lookup 1
       (state (Schedule.remove_flight 1 (Schedule.mk [(1, demo_f1); (2, demo_f2)])))
     = None.
Proof.
  destruct (remove_flight_lookup (Schedule.mk [(1, demo_f1); (2, demo_f2)]) 3)
    as [Hmissing _].
  destruct (remove_flight_lookup (Schedule.mk [(1, demo_f1); (2, demo_f2)]) 1)
    as [_ Hpresent].
  split; [apply Hmissing; reflexivity|].
  apply Hpresent. by eexists.
Defined.

Lemma filter_absent_key (k : Z) (l : list (Z * Flight.t)) :
  k ∉ l.*1 -> filter (fun kv => kv.1 <> k) l = l.
Proof.
  induction l as [|[k0 f0] l IH]; [done|]. simpl. intros Hnot.
  apply not_elem_of_cons in Hnot as [Hne Hnot].
  rewrite filter_cons. simpl. rewrite decide_True by done. by rewrite IH.
Qed.

(** X7. Adding a flight whose id has no entry and removing that id again
    gives back the schedule exactly as it was, listing order included. *)
Theorem add_then_remove_flight (s : Schedule.t) (flight : Flight.t) :
  Schedule.lookup (Flight.id flight) s = None ->
  (Schedule.add_flight flight ;;; Schedule.remove_flight (Flight.id flight)) s
  = (Ok tt, s).
Proof.
  intros Hnone.
  pose proof (proj1 (schedule_lookup_None _ _) Hnone) as Hcont.
  assert (Hnotin : Flight.id flight ∉ (Schedule.flights s).*1).
  { unfold Schedule.contains in Hcont. by apply bool_decide_eq_false_1 in Hcont. }
  unfold Schedule.add_flight, Schedule.remove_flight. run. rewrite Hcont.
  unfold Schedule.contains. simpl.
  rewrite bool_decide_eq_true_2.
  2:{ rewrite fmap_app. apply elem_of_app. right. simpl. by left. }
  simpl. rewrite filter_app, filter_absent_key by done.
  rewrite filter_cons. simpl. rewrite decide_False by (intros Hne; by apply Hne).
  rewrite filter_nil, app_nil_r. by destruct s.
Qed.

Lemma add_then_remove_flight_witness :
  (Schedule.add_flight demo_f2 ;;; Schedule.remove_flight 2)
    (Schedule.mk [(1, demo_f1)])
  = (Ok tt, Schedule.mk [(1, demo_f1)]).
Proof.
  apply (add_then_remove_flight (Schedule.mk [(1, demo_f1)]) demo_f2).
  reflexivity.
Defined.

(** ** Scheduler: what the pass changes and what it leaves *)

Lemma auto_ready_body_promoted (f : Flight.t) :
  promoted_or_same f (state (SimpleScheduler.auto_ready_body f)).
Proof.
  rewrite auto_ready_body_eq. case_bool_decide as Hst; [|by left].
  destruct (Aircraft.capacity (Flight.aircraft f)) as [c|e] eqn:Hcap; [|by left].
  destruct (Flight.passengers_checked_in f =? c) eqn:Hc; [|by left].
  apply Z.eqb_eq in Hc. subst c. by right.
Qed.

Lemma auto_ready_body_settled (f : Flight.t) :
  outcome (SimpleScheduler.auto_ready_body f) = Ok tt ->
  ~ (Flight.status (state (SimpleScheduler.auto_ready_body f)) = BOARDING
     /\ Aircraft.capacity
          (Flight.aircraft (state (SimpleScheduler.auto_ready_body f)))
        = Ok (Flight.passengers_checked_in
                (state (SimpleScheduler.auto_ready_body f)))).
Proof.
  rewrite auto_ready_body_eq. case_bool_decide as Hst.
  - destruct (Aircraft.capacity (Flight.aircraft f)) as [c|e] eqn:Hcap; [|done].
    destruct (Flight.passengers_checked_in f =? c) eqn:Hc.
    + intros _ [Hb _]. done.
    + intros _ [_ Hfull]. unfold state in Hfull. simpl in Hfull.
      rewrite Hcap in Hfull. injection Hfull as ->.
      by rewrite Z.eqb_refl in Hc.
  - intros _ [Hb _]. done.
Qed.

Lemma for_each_value_promoted (l : list (Z * Flight.t)) :
  Forall2 (fun kv kv' => kv'.1 = kv.1 /\ promoted_or_same kv.2 kv'.2)
    l (SimpleScheduler.for_each_value SimpleScheduler.auto_ready_body l).2.
Proof.
  induction l as [|[k f] l IH]; [by constructor|]. simpl.
  pose proof (auto_ready_body_promoted f) as Hf. unfold state in Hf.
  destruct (SimpleScheduler.auto_ready_body f) as [[u|e] f'].
  - destruct (SimpleScheduler.for_each_value _ l) as [r l'']. simpl in *.
    by constructor.
  - simpl. constructor; [done|].
    apply Forall2_same_length_lookup_2; [done|].
    intros n kv kv' Hn Hn'. rewrite Hn in Hn'. injection Hn' as <-.
    split; [done|by left].
Qed.

Lemma for_each_value_settled (l : list (Z * Flight.t)) :
  (SimpleScheduler.for_each_value SimpleScheduler.auto_ready_body l).1 = Ok tt ->
  Forall (fun kv' =>
            ~ (Flight.status kv'.2 = BOARDING
               /\ Aircraft.capacity (Flight.aircraft kv'.2)
                  = Ok (Flight.passengers_checked_in kv'.2)))
    (SimpleScheduler.for_each_value SimpleScheduler.auto_ready_body l).2.
Proof.
  induction l as [|[k f] l IH]; [by constructor|]. simpl.
  pose proof (auto_ready_body_settled f) as Hf. unfold state, outcome in Hf.
  destruct (SimpleScheduler.auto_ready_body f) as [[u|e] f']; [|done].
  destruct (SimpleScheduler.for_each_value _ l) as [r l'']. simpl in *.
  intros Hr. constructor; [|by apply IH]. simpl. apply Hf. by destruct u.
Qed.

Lemma all_promoted_or_same (s : Schedule.t) :
  Forall2 promoted_or_same (Schedule.all s)
    (Schedule.all (state (SimpleScheduler.auto_ready_if_boarded s))).
Proof.
  unfold SimpleScheduler.auto_ready_if_boarded, state.
  pose proof (for_each_value_promoted (Schedule.flights s)) as Hrel.
  destruct (SimpleScheduler.for_each_value _ (Schedule.flights s)) as [r l].
  unfold Schedule.all. simpl in *. apply Forall2_fmap.
  eapply Forall2_impl; [exact Hrel|]. by intros kv kv' [_ ?].
Qed.

(** X8. The pass of [auto_ready_if_boarded] leaves the keys of the
    schedule and their order alone, and to each flight it does nothing
    or exactly one thing: it sets a [BOARDING] flight whose checked-in
    count equals the capacity to [READY].  When the pass returns, no
    flight is left that is [BOARDING] with a full cabin. *)
Theorem auto_ready_if_boarded_effect (s : Schedule.t) :
  let s' := state (SimpleScheduler.auto_ready_if_boarded s) in
  (Schedule.flights s').*1 = (Schedule.flights s).*1
  /\ Forall2 promoted_or_same (Schedule.all s) (Schedule.all s')
  /\ (outcome (SimpleScheduler.auto_ready_if_boarded s) = Ok tt ->
        Forall (fun f' =>
                  ~ (Flight.status f' = BOARDING
                     /\ Aircraft.capacity (Flight.aircraft f')
                        = Ok (Flight.passengers_checked_in f')))
          (Schedule.all s')).
Proof.
  intros s'. split; [|split; [exact (all_promoted_or_same s)|]];
    unfold s', SimpleScheduler.auto_ready_if_boarded, state, outcome;
    pose proof (for_each_value_keys SimpleScheduler.auto_ready_body
                  (Schedule.flights s)) as Hkeys;
    pose proof (for_each_value_settled (Schedule.flights s)) as Hdone;
    destruct (SimpleScheduler.for_each_value _ (Schedule.flights s)) as [r l];
    simpl in *.
  - done.
  - intros Hr. unfold Schedule.all. simpl. apply Forall_fmap.
    eapply Forall_impl; [by apply Hdone|]. done.
Qed.

Lemma auto_ready_if_boarded_effect_witness :
  Forall (fun f' =>
            ~ (Flight.status f' = BOARDING
               /\ Aircraft.capacity (Flight.aircraft f')
                  = Ok (Flight.passengers_checked_in f')))
    (Schedule.all (state (SimpleScheduler.auto_ready_if_boarded
       (Schedule.mk [(1, Flight.with_status BOARDING boarded_f1); (2, demo_f2)])))).
Proof.
  apply (auto_ready_if_boarded_effect
           (Schedule.mk [(1, Flight.with_status BOARDING boarded_f1); (2, demo_f2)])).
  reflexivity.
Defined.

Lemma promoted_or_same_planned (l l' : list Flight.t) :
  Forall2 promoted_or_same l l' ->
  filter (fun f => Flight.status f = PLANNED) l'
  = filter (fun f => Flight.status f = PLANNED) l.
Proof.
  induction 1 as [|f f' l l' Hf _ IH]; [done|].
  rewrite !filter_cons, IH.
  destruct Hf as [->|(Hb & _ & ->)]; [done|].
  simpl. rewrite Hb. by rewrite !decide_False.
Qed.

Lemma promoted_or_same_by_number (number : string) (l l' : list Flight.t) :
  Forall2 promoted_or_same l l' ->
  Forall2 promoted_or_same
    (filter (fun f => Flight.flight_number f = number) l)
    (filter (fun f => Flight.flight_number f = number) l').
Proof.
  induction 1 as [|f f' l l' Hf _ IH]; [constructor|].
  rewrite !filter_cons.
  assert (Hnum : Flight.flight_number f' = Flight.flight_number f).
  { by destruct Hf as [->|(_ & _ & ->)]. }
  rewrite Hnum. destruct (decide (Flight.flight_number f = number)); [|done].
  by constructor.
Qed.

(** X9. The pass of [auto_ready_if_boarded] never touches a [PLANNED]
    flight and never changes which flights carry a flight number:
    [list_planned] gives the same list after the pass as before, and
    [find_by_number] gives the same flights in the same order, each
    unchanged or promoted from [BOARDING] to [READY]. *)
Theorem auto_ready_keeps_listings (s : Schedule.t) (number : string) :
  let s' := state (SimpleScheduler.auto_ready_if_boarded s) in
  Schedule.list_planned s' = Schedule.list_planned s
  /\ Forall2 promoted_or_same
       (Schedule.find_by_number number s) (Schedule.find_by_number number s').
Proof.
  intros s'. pose proof (all_promoted_or_same s) as Hrel.
  split.
  - by apply promoted_or_same_planned.
  - by apply promoted_or_same_by_number.
Qed.

(** ** Schedule: the registry stays well formed *)

Lemma Forall2_transport {A} (R : A -> A -> Prop) (P : A -> Prop) (l l' : list A) :
  (forall x y, R x y -> P x -> P y) ->
  Forall2 R l l' -> Forall P l -> Forall P l'.
Proof.
  intros Hstep. induction 1 as [|x y l l' Hxy _ IH]; [done|].
  intros Hl. apply Forall_cons in Hl as [Hx Hl]. constructor; eauto.
Qed.

Lemma promoted_or_same_id (f f' : Flight.t) :
  promoted_or_same f f' -> Flight.id f' = Flight.id f.
Proof. by intros [->|(_ & _ & ->)]. Qed.

(** X10. A schedule whose keys are pairwise distinct and in which every
    flight is filed under its own id stays so through [add_flight],
    [remove_flight] and the pass of [auto_ready_if_boarded], whether
    they return or raise; the empty schedule is such a schedule. *)
Theorem schedule_ok_preserved (s : Schedule.t) (flight : Flight.t) (flight_id : Z) :
  schedule_ok (Schedule.mk [])
  /\ (schedule_ok s ->
        schedule_ok (state (Schedule.add_flight flight s))
        /\ schedule_ok (state (Schedule.remove_flight flight_id s))
        /\ schedule_ok (state (SimpleScheduler.auto_ready_if_boarded s))).
Proof.
  split; [split; simpl; constructor|].
  intros [Hnd Hids]. split; [|split].
  - unfold Schedule.add_flight. run.
    destruct (Schedule.contains (Flight.id flight) s) eqn:Hcont; [done|].
    unfold Schedule.contains in Hcont. apply bool_decide_eq_false_1 in Hcont.
    split; simpl.
    + rewrite fmap_app. apply NoDup_app. split; [done|]. split.
      * intros x Hx Hin. apply list_elem_of_singleton in Hin. by subst x.
      * apply NoDup_singleton.
    + apply Forall_app. split; [done|]. by constructor.
  - unfold Schedule.remove_flight. run.
    destruct (Schedule.contains flight_id s); [|done]. split; simpl.
    + eapply sublist_NoDup; [exact Hnd|].
      apply fmap_sublist, sublist_filter.
    + apply Forall_forall. intros kv Hkv.
      apply list_elem_of_filter in Hkv as [_ Hkv].
      rewrite Forall_forall in Hids. by apply Hids.
  - unfold SimpleScheduler.auto_ready_if_boarded, state.
    pose proof (for_each_value_keys SimpleScheduler.auto_ready_body
                  (Schedule.flights s)) as Hkeys.
    pose proof (for_each_value_promoted (Schedule.flights s)) as Hrel.
    destruct (SimpleScheduler.for_each_value _ (Schedule.flights s)) as [r l].
    simpl in *. split; simpl; [by rewrite Hkeys|].
    eapply Forall2_transport; [|exact Hrel|exact Hids].
    intros kv kv' [Hk Hf] Hkv. simpl in *.
    by rewrite Hk, Hkv, (promoted_or_same_id _ _ Hf).
Qed.

Lemma schedule_ok_preserved_witness :
  schedule_ok (state (Schedule.add_flight demo_f2 (Schedule.mk [(1, demo_f1)])))
  /\ schedule_ok (state (Schedule.remove_flight 1 (Schedule.mk [(1, demo_f1)]))).
Proof.
  assert (Hok : schedule_ok (Schedule.mk [(1, demo_f1)])).
  { split; simpl.
    - apply NoDup_singleton.
    - constructor; [reflexivity|constructor]. }
  destruct (schedule_ok_preserved (Schedule.mk [(1, demo_f1)]) demo_f2 1)
    as [_ Hkeep].
  destruct (Hkeep Hok) as (Hadd & Hrem & _).
  split; [exact Hadd | exact Hrem].
Defined.

(** ** Airport: failures leave the airport as it was *)

Lemma find_flight_raise_inv (a a' : Airport.t) (flight_id : Z) (e : Exc) :
  Airport.find_flight flight_id a = (Raise e, a') ->
  a' = a /\ exc_class e = FlightNotFoundError
  /\ Forall (fun f => Flight.id f <> flight_id) (Airport.flights a).
Proof.
  unfold Airport.find_flight. run.
  destruct (list_find _ _) as [[i fl]|] eqn:Hfind; [done|].
  intros [= <- <-]. repeat split. exact (proj1 (list_find_None _ _) Hfind).
Qed.

Lemma find_flight_raise_calls (a : Airport.t) (flight_id : Z) (e : Exc) :
  Airport.find_flight flight_id a = (Raise e, a) ->
  Airport.assign_gate flight_id a = (Raise e, a)
  /\ Airport.release_gate flight_id a = (Raise e, a)
  /\ Airport.assign_runway_for_departure flight_id a = (Raise e, a)
  /\ Airport.depart flight_id a = (Raise e, a)
  /\ Airport.arrive flight_id a = (Raise e, a).
Proof.
  intros Hraise. repeat split.
  - unfold Airport.assign_gate, bind at 1. by rewrite Hraise.
  - unfold Airport.release_gate, bind at 1. by rewrite Hraise.
  - unfold Airport.assign_runway_for_departure, bind at 1. by rewrite Hraise.
  - unfold Airport.depart, bind at 1. by rewrite Hraise.
  - unfold Airport.arrive, bind at 1. by rewrite Hraise.
Qed.

(** X11. Called with an id that no flight of the airport has, each of
    [assign_gate], [release_gate], [assign_runway_for_departure],
    [depart] and [arrive] raises [FlightNotFoundError] naming the id,
    before it looks at any gate or runway, and leaves the airport as it
    was. *)
Theorem unknown_flight_is_reported (a : Airport.t) (flight_id : Z) :
  Forall (fun f => Flight.id f <> flight_id) (Airport.flights a) ->
  let not_found :=
    mkExc FlightNotFoundError
      ("Flug " +:+ pretty flight_id +:+ " nicht gefunden.") in
  Airport.assign_gate flight_id a = (Raise not_found, a)
  /\ Airport.release_gate flight_id a = (Raise not_found, a)
  /\ Airport.assign_runway_for_departure flight_id a = (Raise not_found, a)
  /\ Airport.depart flight_id a = (Raise not_found, a)
  /\ Airport.arrive flight_id a = (Raise not_found, a).
Proof.
  intros Hnone not_found.
  exact (find_flight_raise_calls _ _ _ (find_flight_missing _ _ Hnone)).
Qed.

Lemma unknown_flight_is_reported_witness :
  Airport.depart 7 build_demo_airport =
    (Raise (mkExc FlightNotFoundError "Flug 7 nicht gefunden."),
     build_demo_airport).
Proof.
  apply (unknown_flight_is_reported build_demo_airport 7).
  repeat constructor; discriminate.
Defined.

Lemma release_gate_returns (a : Airport.t) (flight_id : Z) (i : nat) (fl : Flight.t) :
  the_flight a flight_id i fl ->
  outcome (Airport.release_gate flight_id a) = Ok tt.
Proof.
  intros Hfl. rewrite (release_gate_eq _ _ _ _ Hfl).
  destruct (Flight.gate_id fl); [|done]. by destruct (list_find _ _) as [[j g]|].
Qed.

(** X12. No operation of the airport fails half way: whenever
    [assign_gate], [release_gate], [assign_runway_for_departure],
    [depart] or [arrive] raises, the airport is exactly as it was before
    the call.  [release_gate] raises for an unknown flight only, the
    assignments raise their own error class besides, and [depart] and
    [arrive] raise [ValueError] besides. *)
Theorem raising_call_changes_nothing (a : Airport.t) (flight_id : Z) (e : Exc) :
  (outcome (Airport.assign_gate flight_id a) = Raise e ->
     state (Airport.assign_gate flight_id a) = a
     /\ (exc_class e = FlightNotFoundError \/ exc_class e = GateNotAvailableError))
  /\ (outcome (Airport.release_gate flight_id a) = Raise e ->
        state (Airport.release_gate flight_id a) = a
        /\ exc_class e = FlightNotFoundError)
  /\ (outcome (Airport.assign_runway_for_departure flight_id a) = Raise e ->
        state (Airport.assign_runway_for_departure flight_id a) = a
        /\ (exc_class e = FlightNotFoundError
            \/ exc_class e = RunwayNotAvailableError))
  /\ (outcome (Airport.depart flight_id a) = Raise e ->
        state (Airport.depart flight_id a) = a
        /\ (exc_class e = FlightNotFoundError \/ exc_class e = ValueError))
  /\ (outcome (Airport.arrive flight_id a) = Raise e ->
        state (Airport.arrive flight_id a) = a
        /\ (exc_class e = FlightNotFoundError \/ exc_class e = ValueError)).
Proof.
  destruct (find_flight_cases a flight_id) as [(i & fl & Hfl)|Hraise].
  2:{ destruct (find_flight_raise_calls _ _ _ Hraise)
        as (-> & -> & -> & -> & ->).
      repeat apply conj; unfold outcome, state; simpl; intros [= <-]; auto. }
  split; [|split; [|split; [|split]]].
  - rewrite (assign_gate_eq _ _ _ _ Hfl).
    destruct (list_find _ _) as [[j g]|]; [done|].
    unfold outcome, state. simpl. intros [= <-]. auto.
  - by rewrite (release_gate_returns _ _ _ _ Hfl).
  - rewrite (assign_runway_eq _ _ _ _ Hfl).
    destruct (list_find _ _) as [[k r]|]; [done|].
    unfold outcome, state. simpl. intros [= <-]. auto.
  - rewrite (depart_eq _ _ _ _ Hfl).
    destruct (negb _); [unfold outcome, state; simpl; intros [= <-]; auto|].
    destruct (Flight.runway_id fl) as [rid|] eqn:Hrid;
      [|unfold outcome, state; simpl; intros [= <-]; auto].
    assert (Hfl3 : exists fl3, the_flight (after_runway_release a i fl) flight_id i fl3).
    { unfold after_runway_release.
      destruct (list_find _ _) as [[k r]|];
        [exists (Flight.with_runway_id None (Flight.with_status AIRBORNE fl))
        |exists (Flight.with_status AIRBORNE fl)];
        (eapply the_flight_insert; [exact Hfl|apply Hfl|reflexivity]). }
    destruct Hfl3 as [fl3 Hfl3].
    by rewrite (release_gate_returns _ _ _ _ Hfl3).
  - rewrite (arrive_eq _ _ _ _ Hfl).
    case_bool_decide; [done|].
    unfold outcome, state. simpl. intros [= <-]. auto.
Qed.

Lemma raising_call_changes_nothing_witness :
  state (Airport.depart 1 build_demo_airport) = build_demo_airport
  /\ (exc_class (mkExc ValueError "Flug nicht abflugbereit.") = FlightNotFoundError
      \/ exc_class (mkExc ValueError "Flug nicht abflugbereit.") = ValueError).
Proof.
  destruct (raising_call_changes_nothing build_demo_airport 1
              (mkExc ValueError "Flug nicht abflugbereit."))
    as (_ & _ & _ & Hdepart & _).
  apply Hdepart. reflexivity.
Defined.

(** ** Airport: assignment and release compose *)

Lemma unique_keys_same_position {A} (key : A -> Z) (l : list A)
    (j k : nat) (x y : A) :
  NoDup (key <$> l) ->
  l !! j = Some x -> l !! k = Some y -> key x = key y -> j = k.
Proof.
  intros Hnd Hj Hk Hkey.
  apply (NoDup_lookup _ j k (key y) Hnd).
  - by rewrite list_lookup_fmap, Hj; simpl; rewrite Hkey.
  - by rewrite list_lookup_fmap, Hk.
Qed.

Lemma is_first_by_key {A} (key : A -> Z) (l : list A) (k : nat) (x : A) (v : Z) :
  NoDup (key <$> l) -> l !! k = Some x -> key x = v ->
  is_first (fun y => Some (key y) = Some v) l k x.
Proof.
  intros Hnd Hk Hv. split; [done|]. split; [by rewrite Hv|].
  intros j y Hj Hlt [= Hy].
  assert (j = k); [|lia].
  eapply (unique_keys_same_position key); [exact Hnd|exact Hj|exact Hk|congruence].
Qed.

Lemma keys_insert {A} (key : A -> Z) (l : list A) (j : nat) (x x' : A) :
  l !! j = Some x -> key x' = key x -> key <$> <[j := x']> l = key <$> l.
Proof.
  intros Hj Hkey. rewrite list_fmap_insert, Hkey.
  apply list_insert_id. by rewrite list_lookup_fmap, Hj.
Qed.

Lemma gate_release_assign_id (flight_id : Z) (g : Gate.t) :
  Gate.is_free g = true ->
  Gate.with_occupied_by None (Gate.with_occupied_by (Some flight_id) g) = g.
Proof.
  destruct g as [n w o gid]. unfold Gate.is_free. simpl. by destruct o.
Qed.

Lemma flight_gate_id_reset (fl : Flight.t) (v : option Z) :
  Flight.gate_id fl = None ->
  Flight.with_gate_id None (Flight.with_gate_id v fl) = fl.
Proof. destruct fl. simpl. by intros ->. Qed.

(** X13. With pairwise distinct gate ids, for a flight that holds no
    gate, [assign_gate] followed by [release_gate] returns and gives
    back the airport exactly as it was: the gate that was taken is free
    again and the flight's gate reference is unset again.  When no gate
    is free the pair raises [GateNotAvailableError] and also leaves the
    airport as it was. *)
Theorem assign_then_release_gate (a : Airport.t) (flight_id : Z) (i : nat) (fl : Flight.t) :
  gate_ids_unique a ->
  the_flight a flight_id i fl ->
  Flight.gate_id fl = None ->
  (forall j g,
     is_first (fun g => Gate.is_free g = true) (Airport.gates a) j g ->
     (Airport.assign_gate flight_id ;;; Airport.release_gate flight_id) a
     = (Ok tt, a))
  /\ (Forall (fun g => Gate.is_free g = false) (Airport.gates a) ->
        (Airport.assign_gate flight_id ;;; Airport.release_gate flight_id) a
        = (Raise (mkExc GateNotAvailableError "Kein Gate frei."), a)).
Proof.
  intros Huniq Hfl Hnone. split.
  - intros j g Hg. pose proof Hg as (Hj & Hfree & _).
    pose proof (lookup_lt_Some _ _ _ Hj) as Hjlen.
    set (g1 := Gate.with_occupied_by (Some flight_id) g).
    set (fl1 := Flight.with_gate_id (Some (Gate.id g)) fl).
    set (a1 := Airport.mk (Airport.name a) (<[j := g1]> (Airport.gates a))
                 (Airport.runways a) (<[i := fl1]> (Airport.flights a))).
    assert (Hassign : Airport.assign_gate flight_id a = (Ok j, a1)).
    { by rewrite (assign_gate_eq _ _ _ _ Hfl), (list_find_of_is_first _ _ _ _ Hg). }
    assert (Hfl1 : the_flight a1 flight_id i fl1).
    { eapply the_flight_insert; [exact Hfl|apply Hfl|done]. }
    assert (Hfind : list_find (fun g' => Some (Gate.id g') = Some (Gate.id g))
                      (Airport.gates a1) = Some (j, g1)).
    { apply list_find_of_is_first, (is_first_by_key Gate.id).
      - simpl. unfold gate_ids_unique in Huniq. by rewrite (keys_insert _ _ _ g).
      - simpl. by apply list_lookup_insert_eq.
      - done. }
    unfold bind. rewrite Hassign, (release_gate_eq _ _ _ _ Hfl1).
    change (Flight.gate_id fl1) with (Some (Gate.id g)). cbv beta iota.
    rewrite Hfind. f_equal. unfold a1, g1, fl1. simpl.
    rewrite !list_insert_insert_eq, gate_release_assign_id by done.
    rewrite flight_gate_id_reset by done.
    rewrite !list_insert_id by (done || by eapply is_first_lookup).
    by destruct a.
  - intros Hfull.
    assert (Hfind : list_find (fun g => Gate.is_free g = true) (Airport.gates a) = None).
    { apply list_find_None. eapply Forall_impl; [exact Hfull|].
      intros g Hg. by rewrite Hg. }
    unfold bind. by rewrite (assign_gate_eq _ _ _ _ Hfl), Hfind.
Qed.

Lemma assign_then_release_gate_witness :
  (Airport.assign_gate 1 ;;; Airport.release_gate 1) build_demo_airport
  = (Ok tt, build_demo_airport).
Proof.
  assert (Huniq : gate_ids_unique build_demo_airport).
  { unfold gate_ids_unique. simpl. apply NoDup_cons. split.
    - intros Hin. apply list_elem_of_singleton in Hin. discriminate.
    - apply NoDup_singleton. }
  assert (Hfl : the_flight build_demo_airport 1 0 demo_f1).
  { split; [reflexivity|]. split; [reflexivity|]. intros j y _ Hj. lia. }
  assert (Hnone : Flight.gate_id demo_f1 = None) by reflexivity.
  apply (proj1 (assign_then_release_gate build_demo_airport 1 0 demo_f1
                  Huniq Hfl Hnone) 0%nat demo_gate_A1).
  split; [reflexivity|]. split; [reflexivity|]. intros j y _ Hj. lia.
Defined.

(** X14. An assignment never takes a resource away from its holder:
    [assign_gate] leaves every occupied gate exactly as it is, and
    [assign_runway_for_departure] leaves every runway that is not
    available (in use, or in maintenance) exactly as it is, whichever
    flight the call is for and whether it returns or raises. *)
Theorem assignment_keeps_holders (a : Airport.t) (flight_id : Z) :
  (forall k G,
     Airport.gates a !! k = Some G -> Gate.is_free G = false ->
     Airport.gates (state (Airport.assign_gate flight_id a)) !! k = Some G)
  /\ (forall k R,
        Airport.runways a !! k = Some R -> Runway.is_available R = false ->
        Airport.runways
          (state (Airport.assign_runway_for_departure flight_id a)) !! k
        = Some R).
Proof.
  destruct (find_flight_cases a flight_id) as [(i & fl & Hfl)|Hraise].
  2:{ destruct (find_flight_raise_calls _ _ _ Hraise) as (-> & _ & -> & _).
      by split. }
  split.
  - intros k G Hk Hocc. rewrite (assign_gate_eq _ _ _ _ Hfl).
    destruct (list_find _ _) as [[j g]|] eqn:Hfind; [|done].
    pose proof (is_first_of_list_find _ _ _ _ Hfind) as (Hj & Hfree & _).
    unfold state. simpl. rewrite list_lookup_insert_ne; [done|].
    intros ->. rewrite Hk in Hj. injection Hj as ->. by rewrite Hfree in Hocc.
  - intros k R Hk Hocc. rewrite (assign_runway_eq _ _ _ _ Hfl).
    destruct (list_find _ _) as [[j r]|] eqn:Hfind; [|done].
    pose proof (is_first_of_list_find _ _ _ _ Hfind) as (Hj & Hfree & _).
    unfold state. simpl. rewrite list_lookup_insert_ne; [done|].
    intros ->. rewrite Hk in Hj. injection Hj as ->. by rewrite Hfree in Hocc.
Qed.

Lemma assignment_keeps_holders_witness :
  Airport.gates (state (Airport.assign_gate 2 demo_after_first_gate)) !! 0%nat
  = Some occupied_gate.
Proof.
  apply (proj1 (assignment_keeps_holders demo_after_first_gate 2) 0%nat occupied_gate);
    reflexivity.
Defined.

(** X15. For a registered flight, [assign_runway_for_departure] takes
    the first available runway in list order, marks it [IN_USE] by the
    flight, records its id on the flight and sets the flight's status to
    [TAXI] whatever the status was before (there is no status check,
    and a runway reference the flight already had is overwritten).
    When no runway is available it raises [RunwayNotAvailableError] and
    changes nothing. *)
Theorem assign_runway_first_fit (a : Airport.t) (flight_id : Z) (i : nat) (fl : Flight.t) :
  the_flight a flight_id i fl ->
  (forall (k : nat) (r : Runway.t),
     is_first (fun r => Runway.is_available r = true) (Airport.runways a) k r ->
     exists (a' : Airport.t) (fl' : Flight.t) (r' : Runway.t),
       Airport.assign_runway_for_departure flight_id a = (Ok k, a')
       /\ Airport.gates a' = Airport.gates a
       /\ Airport.runways a' = <[k := r']> (Airport.runways a)
       /\ Airport.flights a' = <[i := fl']> (Airport.flights a)
       /\ r' = Runway.with_status IN_USE
                 (Runway.with_current_flight (Some flight_id) r)
       /\ fl' = Flight.with_status TAXI
                  (Flight.with_runway_id (Some (Runway.id r)) fl))
  /\ (Forall (fun r => Runway.is_available r = false) (Airport.runways a) ->
        Airport.assign_runway_for_departure flight_id a =
          (Raise (mkExc RunwayNotAvailableError "Keine Piste frei."), a)).
Proof.
  intros Hfl. split.
  - intros k r Hr. rewrite (assign_runway_eq _ _ _ _ Hfl).
    rewrite (list_find_of_is_first _ _ _ _ Hr).
    by eexists _, _, _.
  - intros Hnone.
    assert (Hfind : list_find (fun r => Runway.is_available r = true)
                      (Airport.runways a) = None).
    { apply list_find_None. eapply Forall_impl; [exact Hnone|].
      intros r Hr. by rewrite Hr. }
    by rewrite (assign_runway_eq _ _ _ _ Hfl), Hfind.
Qed.

Lemma assign_runway_first_fit_witness :
  Airport.assign_runway_for_departure 1
    (Airport.with_runways [maintenance_runway] build_demo_airport) =
    (Raise (mkExc RunwayNotAvailableError "Keine Piste frei."),
     Airport.with_runways [maintenance_runway] build_demo_airport).
Proof.
  assert (Hfl : the_flight
            (Airport.with_runways [maintenance_runway] build_demo_airport)
            1 0 demo_f1).
  { split; [reflexivity|]. split; [reflexivity|]. intros j y _ Hj. lia. }
  apply (proj2 (assign_runway_first_fit _ 1 0 demo_f1 Hfl)).
  repeat constructor.
Defined.




(** ** Airport: invariants of every reachable state *)

Lemma assign_gate_runways (a : Airport.t) (flight_id : Z) :
  Airport.runways (state (Airport.assign_gate flight_id a)) = Airport.runways a.
Proof.
  destruct (find_flight_cases a flight_id) as [(i & fl & Hfl)|Hraise].
  2:{ by destruct (find_flight_raise_calls _ _ _ Hraise) as (-> & _). }
  rewrite (assign_gate_eq _ _ _ _ Hfl). by destruct (list_find _ _) as [[j g]|].
Qed.

Lemma release_gate_runways (a : Airport.t) (flight_id : Z) :
  Airport.runways (state (Airport.release_gate flight_id a)) = Airport.runways a.
Proof.
  destruct (find_flight_cases a flight_id) as [(i & fl & Hfl)|Hraise].
  2:{ by destruct (find_flight_raise_calls _ _ _ Hraise) as (_ & -> & _). }
  rewrite (release_gate_eq _ _ _ _ Hfl).
  destruct (Flight.gate_id fl); [|done]. by destruct (list_find _ _) as [[j g]|].
Qed.

Lemma runways_ok_call (a : Airport.t) (c : call) :
  plain_call c ->
  Forall runway_invariant (Airport.runways a) ->
  Forall runway_invariant (Airport.runways (do_call a c)).
Proof.
  intros Hplain Hok.
  assert (Hfree : forall n l rid, runway_invariant (Runway.mk n l FREE None rid)).
  { intros n l rid. by split. }
  assert (Hused : forall n l fid rid,
            runway_invariant (Runway.mk n l IN_USE (Some fid) rid)).
  { intros n l fid rid. by split. }
  destruct c as [gate|runway|flight|fid|fid|fid|fid|fid|i count|i st]; simpl.
  - done.
  - apply Forall_app. split; [done|]. by constructor.
  - done.
  - by rewrite assign_gate_runways.
  - by rewrite release_gate_runways.
  - destruct (find_flight_cases a fid) as [(i & fl & Hfl)|Hraise].
    2:{ by destruct (find_flight_raise_calls _ _ _ Hraise) as (_ & _ & -> & _). }
    rewrite (assign_runway_eq _ _ _ _ Hfl).
    destruct (list_find _ _) as [[k r]|]; [|done].
    unfold state. simpl. by apply Forall_insert.
  - destruct (find_flight_cases a fid) as [(i & fl & Hfl)|Hraise].
    2:{ by destruct (find_flight_raise_calls _ _ _ Hraise) as (_ & _ & _ & -> & _). }
    rewrite (depart_eq _ _ _ _ Hfl).
    destruct (negb _); [done|].
    destruct (Flight.runway_id fl); [|done].
    rewrite release_gate_runways. unfold after_runway_release.
    destruct (list_find _ _) as [[k r]|]; simpl; [|done].
    by apply Forall_insert.
  - destruct (find_flight_cases a fid) as [(i & fl & Hfl)|Hraise].
    2:{ by destruct (find_flight_raise_calls _ _ _ Hraise) as (_ & _ & _ & _ & ->). }
    rewrite (arrive_eq _ _ _ _ Hfl). by case_bool_decide.
  - unfold Airport.on_flight. by destruct (Flight.board_passengers _ _).
  - done.
Qed.

Lemma gate_refs_ok_call (a : Airport.t) (c : call) :
  plain_call c -> gate_refs_ok a -> gate_refs_ok (do_call a c).
Proof.
  intros Hplain Hok.
  destruct c as [gate|runway|flight|fid|fid|fid|fid|fid|i count|i st];
    cbn [do_call].
  - by apply gate_refs_ok_add_gate.
  - by apply gate_refs_ok_add_runway.
  - by apply gate_refs_ok_add_flight.
  - by apply gate_refs_ok_assign_gate.
  - by apply gate_refs_ok_release_gate.
  - by apply gate_refs_ok_assign_runway.
  - by apply gate_refs_ok_depart.
  - by apply gate_refs_ok_arrive.
  - apply gate_refs_ok_on_flight; [|done]. apply board_passengers_gate_id.
  - apply gate_refs_ok_on_flight; [|done]. apply set_status_gate_id.
Qed.

(** X17. In every state an airport can reach from an empty one by calls
    of [add_gate], [add_runway], [add_flight], [assign_gate],
    [release_gate], [assign_runway_for_departure], [depart], [arrive]
    and of [board_passengers] and [set_status] on its flights, in any
    order and whether they return or raise, every flight's gate
    reference is unset or the id of a gate of the airport, and every
    runway has [status == IN_USE] exactly when its [current_flight] is
    set; provided flights are added without a gate reference and
    runways are added with status and current flight in agreement. *)
Theorem reachable_airport_ok (cs : list call) (a : Airport.t) :
  Forall plain_call cs ->
  gate_refs_ok a ->
  Forall runway_invariant (Airport.runways a) ->
  gate_refs_ok (do_calls cs a)
  /\ Forall runway_invariant (Airport.runways (do_calls cs a)).
Proof.
  revert a. induction cs as [|c cs IH]; intros a Hplain Hgates Hrunways; [done|].
  apply Forall_cons in Hplain as [Hc Hcs]. simpl. apply IH; [done| |].
  - by apply gate_refs_ok_call.
  - by apply runways_ok_call.
Qed.

Lemma reachable_airport_ok_witness :
  gate_refs_ok
    (do_calls [CallAddGate demo_gate_A1; CallAddRunway demo_runway_L;
               CallAddFlight demo_f1; CallAssignGate 1; CallBoard 0 180;
               CallAssignRunway 1; CallAssignGate 1; CallDepart 1; CallArrive 1]
       (Airport.mk "Demo International" [] [] []))
  /\ Forall runway_invariant
       (Airport.runways
          (do_calls [CallAddGate demo_gate_A1; CallAddRunway demo_runway_L;
                     CallAddFlight demo_f1; CallAssignGate 1; CallBoard 0 180;
                     CallAssignRunway 1; CallAssignGate 1; CallDepart 1;
                     CallArrive 1]
             (Airport.mk "Demo International" [] [] []))).
Proof.
  apply reachable_airport_ok.
  - repeat first [apply Forall_nil | apply Forall_cons; split];
      try exact I; try reflexivity.
    split; simpl; [discriminate | by intros []].
  - apply gate_refs_ok_empty.
  - simpl. constructor.
Defined.

(** ** Airport: adding and finding flights *)

(** X18. [Airport.add_flight] appends without looking at the id.  A
    flight added under an id no earlier flight has is found by
    [find_flight] at the end of the list; a flight added under an id
    that an earlier flight already has is never found, the earlier one
    is; and looking for any other id is not affected. *)
Theorem find_flight_after_add (a : Airport.t) (flight : Flight.t) (flight_id : Z) :
  let a' := state (Airport.add_flight flight a) in
  (forall i fl, the_flight a flight_id i fl ->
     Airport.find_flight flight_id a' = (Ok i, a') /\ the_flight a' flight_id i fl)
  /\ (Forall (fun f => Flight.id f <> flight_id) (Airport.flights a) ->
      Flight.id flight = flight_id ->
      Airport.find_flight flight_id a' = (Ok (length (Airport.flights a)), a')
      /\ the_flight a' flight_id (length (Airport.flights a)) flight)
  /\ (Forall (fun f => Flight.id f <> flight_id) (Airport.flights a) ->
      Flight.id flight <> flight_id ->
      Airport.find_flight flight_id a' =
        (Raise (mkExc FlightNotFoundError
                  ("Flug " +:+ pretty flight_id +:+ " nicht gefunden.")), a')).
Proof.
  intros a'. unfold a', state. simpl. split; [|split].
  - intros i fl Hfl.
    assert (Hfl' : the_flight
              (Airport.with_flights (Airport.flights a ++ [flight]) a) flight_id i fl).
    { apply (is_first_of_list_find _). simpl.
      apply list_find_app_l. exact (list_find_of_is_first _ _ _ _ Hfl). }
    split; [exact (find_flight_found _ _ _ _ Hfl')|exact Hfl'].
  - intros Hnone Hid.
    assert (Hfl' : the_flight
              (Airport.with_flights (Airport.flights a ++ [flight]) a)
              flight_id (length (Airport.flights a)) flight).
    { apply (is_first_of_list_find _). simpl.
      rewrite list_find_app_r by (by apply list_find_None).
      simpl. by rewrite decide_True. }
    split; [exact (find_flight_found _ _ _ _ Hfl')|exact Hfl'].
  - intros Hnone Hid. apply find_flight_missing. simpl.
    apply Forall_app. split; [done|]. by constructor.
Qed.

Lemma find_flight_after_add_witness :
  Airport.find_flight 1
    (state (Airport.add_flight (Flight.with_status LANDED demo_f1)
              build_demo_airport))
  = (Ok 0%nat,
     state (Airport.add_flight (Flight.with_status LANDED demo_f1)
              build_demo_airport)).
Proof.
  assert (Hfl : the_flight build_demo_airport 1 0 demo_f1).
  { split; [reflexivity|]. split; [reflexivity|]. intros j y _ Hj. lia. }
  apply (proj1 (find_flight_after_add build_demo_airport
                  (Flight.with_status LANDED demo_f1) 1) 0%nat demo_f1 Hfl).
Defined.

(** ** Construction: ids from the counters *)

Lemma construct_all_counter {S A B} (make : A -> M S B)
    (counter : S -> Z) (key : B -> Z) :
  (forall x s, exists y s',
     make x s = (Ok y, s') /\ key y = counter s /\ counter s' = counter s + 1) ->
  forall args s, exists ys s',
    construct_all make args s = (Ok ys, s')
    /\ key <$> ys = seqZ (counter s) (Z.of_nat (length args))
    /\ counter s' = counter s + Z.of_nat (length args).
Proof.
  intros Hstep args. induction args as [|x args IH]; intros s.
  - exists [], s. split; [done|]. split; [done|]. simpl. lia.
  - destruct (Hstep x s) as (y & s1 & Hmake & Hkey & Hcount).
    destruct (IH s1) as (ys & s2 & Hall & Hkeys & Hcount2).
    exists (y :: ys), s2. split; [|split].
    + simpl. unfold bind, ret. by rewrite Hmake, Hall.
    + rewrite fmap_cons, Hkeys, Hkey, Hcount.
      rewrite (seqZ_cons (counter s)) by (simpl; lia).
      f_equal. f_equal; simpl; lia.
    + rewrite Hcount2, Hcount. simpl. lia.
Qed.

(** X19. Gates, runways and flights built one after the other by their
    constructors get consecutive ids, starting at the value the class's
    counter has, so the ids of the objects of one class are pairwise
    distinct; no construction of these three classes raises. *)
Theorem constructed_ids_are_fresh (g : Globals.t) :
  (forall args : list (string * PyFloat * option Z),
     exists gates g',
       construct_all (fun '(name, wingspan, occupied_by) =>
                        Gate_init name wingspan occupied_by) args g
       = (Ok gates, g')
       /\ Gate.id <$> gates
          = seqZ (Globals.gate_id_counter g) (Z.of_nat (length args))
       /\ NoDup (Gate.id <$> gates)
       /\ Globals.gate_id_counter g'
          = Globals.gate_id_counter g + Z.of_nat (length args))
  /\ (forall args : list (string * Z * RunwayStatus * option Z),
        exists runways g',
          construct_all (fun '(name, length_m, status, current_flight) =>
                           Runway_init name length_m status current_flight) args g
          = (Ok runways, g')
          /\ Runway.id <$> runways
             = seqZ (Globals.runway_id_counter g) (Z.of_nat (length args))
          /\ NoDup (Runway.id <$> runways)
          /\ Globals.runway_id_counter g'
             = Globals.runway_id_counter g + Z.of_nat (length args))
  /\ (forall args : list Flight.t,
        exists flights g',
          construct_all Flight_init args g = (Ok flights, g')
          /\ Flight.id <$> flights
             = seqZ (Globals.flight_id_counter g) (Z.of_nat (length args))
          /\ NoDup (Flight.id <$> flights)
          /\ Globals.flight_id_counter g'
             = Globals.flight_id_counter g + Z.of_nat (length args)).
Proof.
  split; [|split]; intros args.
  - destruct (construct_all_counter
                (fun '(name, wingspan, occupied_by) =>
                   Gate_init name wingspan occupied_by)
                Globals.gate_id_counter Gate.id) with (args := args) (s := g)
      as (ys & g' & Hall & Hkeys & Hcount).
    { intros [[name wingspan] occupied_by] s. by eexists _, _. }
    exists ys, g'. split; [done|]. split; [done|]. split; [|done].
    rewrite Hkeys. apply NoDup_seqZ.
  - destruct (construct_all_counter
                (fun '(name, length_m, status, current_flight) =>
                   Runway_init name length_m status current_flight)
                Globals.runway_id_counter Runway.id) with (args := args) (s := g)
      as (ys & g' & Hall & Hkeys & Hcount).
    { intros [[[name length_m] status] current_flight] s. by eexists _, _. }
    exists ys, g'. split; [done|]. split; [done|]. split; [|done].
    rewrite Hkeys. apply NoDup_seqZ.
  - destruct (construct_all_counter Flight_init
                Globals.flight_id_counter Flight.id) with (args := args) (s := g)
      as (ys & g' & Hall & Hkeys & Hcount).
    { intros fields s. by eexists _, _. }
    exists ys, g'. split; [done|]. split; [done|]. split; [|done].
    rewrite Hkeys. apply NoDup_seqZ.
Qed.

(** The demo's two gates, built by the constructor when the module has
    just been loaded, are the gates of the demo airport. *)
Example demo_gates_constructed :
  construct_all (fun '(name, wingspan, occupied_by) =>
                   Gate_init name wingspan occupied_by)
    [("A1", Finite 60, None); ("A2", Finite 52, None)] Globals.fresh
  = (Ok [demo_gate_A1; demo_gate_A2], Globals.mk 1 0 0 3 1 1).
Proof. reflexivity. Qed.

Lemma Aircraft_init_step (x : aircraft_args) (g : Globals.t) :
  let res := Aircraft_init x g in
  Globals.aircraft_id_counter (state res) = Globals.aircraft_id_counter g + 1
  /\ Globals.passenger_total_created (state res)
     = Globals.passenger_total_created g + attempts_of PassengerClass [x]
  /\ Globals.cargo_total_created (state res)
     = Globals.cargo_total_created g + attempts_of CargoClass [x]
  /\ Globals.gate_id_counter (state res) = Globals.gate_id_counter g
  /\ Globals.runway_id_counter (state res) = Globals.runway_id_counter g
  /\ Globals.flight_id_counter (state res) = Globals.flight_id_counter g
  /\ (if overweight x
      then outcome res
           = Raise (mkExc ValueError "Leermasse muss kleiner als MTOW sein.")
      else exists ac, outcome res = Ok ac
                      /\ aircraft_id ac = Globals.aircraft_id_counter g
                      /\ Aircraft.is_passenger ac
                         = match class_of x with
                           | PassengerClass => true
                           | CargoClass => false
                           end).
Proof.
  destruct x; simpl;
    unfold PassengerAircraft_init, CargoAircraft_init, Aircraft_post_init; run;
    destruct (py_float_ge _ _); simpl; repeat split; try lia; by eexists.
Qed.

(** X20. Every attempt to construct an aircraft takes the next aircraft
    id and is counted in its own class's [total_aircraft_created], also
    when the construction is rejected because the empty weight is not
    below the maximum take-off weight (the check comes after the
    counting).  After any series of attempts the id counter has advanced
    by the number of attempts, the total of [PassengerAircraft] has
    grown by the number of passenger attempts and the total of
    [CargoAircraft] by the number of cargo attempts, the other counters
    are untouched, and the n-th attempt either was rejected with
    [ValueError] or gave an aircraft of the class asked for whose id is
    the counter's start value plus n. *)
Theorem aircraft_attempts_consume_ids (args : list aircraft_args) (g : Globals.t) :
  let results := (attempt_all Aircraft_init args g).1 in
  let g' := (attempt_all Aircraft_init args g).2 in
  length results = length args
  /\ Globals.aircraft_id_counter g'
     = Globals.aircraft_id_counter g + Z.of_nat (length args)
  /\ Globals.passenger_total_created g'
     = Globals.passenger_total_created g + attempts_of PassengerClass args
  /\ Globals.cargo_total_created g'
     = Globals.cargo_total_created g + attempts_of CargoClass args
  /\ Globals.passenger_total_created g' + Globals.cargo_total_created g'
     = Globals.passenger_total_created g + Globals.cargo_total_created g
       + Z.of_nat (length args)
  /\ Globals.gate_id_counter g' = Globals.gate_id_counter g
  /\ Globals.runway_id_counter g' = Globals.runway_id_counter g
  /\ Globals.flight_id_counter g' = Globals.flight_id_counter g
  /\ forall (n : nat) (x : aircraft_args),
       args !! n = Some x ->
       exists r, results !! n = Some r
         /\ if overweight x
            then r = Raise (mkExc ValueError "Leermasse muss kleiner als MTOW sein.")
            else exists ac, r = Ok ac
                   /\ aircraft_id ac = Globals.aircraft_id_counter g + Z.of_nat n
                   /\ Aircraft.is_passenger ac
                      = match class_of x with
                        | PassengerClass => true
                        | CargoClass => false
                        end.
Proof.
  revert g. induction args as [|x args IH]; intros g.
  - simpl. repeat split; try lia. intros n x Hn. by rewrite lookup_nil in Hn.
  - destruct (Aircraft_init_step x g)
      as (Hid & Hpass & Hcargo & Hgate & Hrunway & Hflight & Hout).
    assert (Hone : attempts_of PassengerClass [x] + attempts_of CargoClass [x] = 1).
    { simpl. by destruct (class_of x). }
    assert (Hp : attempts_of PassengerClass (x :: args)
                 = attempts_of PassengerClass [x] + attempts_of PassengerClass args).
    { simpl. lia. }
    assert (Hc : attempts_of CargoClass (x :: args)
                 = attempts_of CargoClass [x] + attempts_of CargoClass args).
    { simpl. lia. }
    rewrite Hp, Hc. clear Hp Hc.
    cbn [attempt_all length]. unfold state, outcome in *.
    destruct (Aircraft_init x g) as [r g1]. cbn [fst snd] in *.
    specialize (IH g1). cbv zeta in IH.
    destruct (attempt_all Aircraft_init args g1) as [rs g2]. cbn [fst snd] in *.
    destruct IH as (Hlen & Hid2 & Hpass2 & Hcargo2 & Hsum2 & Hgate2 & Hrunway2
                    & Hflight2 & Hnth).
    split; [simpl; by rewrite Hlen|].
    split; [lia|]. split; [lia|]. split; [lia|]. split; [lia|].
    split; [lia|]. split; [lia|]. split; [lia|].
    intros [|n] y Hy; simpl in Hy |- *.
    + injection Hy as <-. exists r. split; [done|].
      destruct (overweight x); [done|].
      destruct Hout as (ac & -> & Hac & Hcls). exists ac.
      split; [done|]. split; [lia|done].
    + destruct (Hnth n y Hy) as (r' & Hr' & Hcase). exists r'. split; [done|].
      destruct (overweight y); [done|].
      destruct Hcase as (ac & -> & Hac & Hcls). exists ac.
      split; [done|]. split; [lia|done].
Qed.

(** A rejected cargo attempt followed by an accepted passenger attempt,
    when the module has just been loaded: the rejected one has taken
    id 1 and is counted as cargo, the accepted one has id 2 and is
    counted as passenger. *)
Lemma aircraft_attempts_consume_ids_witness :
  (exists r,
     (attempt_all Aircraft_init
        [CargoArgs "B747F" (Finite 396000) (Finite 180000) JET "D-CARG"
           (Finite 700) (Finite 130000) (Finite 183000) (Finite (85 # 100));
         PassengerArgs "A320neo" (Finite 43000) (Finite 79000) JET "D-AIAB"
           30 6 (Finite 19000) (Finite 24)]
        Globals.fresh).1 !! 1%nat = Some r
     /\ exists ac, r = Ok ac /\ aircraft_id ac = 1 + Z.of_nat 1
                   /\ Aircraft.is_passenger ac = true)
  /\ Globals.passenger_total_created
       (attempt_all Aircraft_init
          [CargoArgs "B747F" (Finite 396000) (Finite 180000) JET "D-CARG"
             (Finite 700) (Finite 130000) (Finite 183000) (Finite (85 # 100));
           PassengerArgs "A320neo" (Finite 43000) (Finite 79000) JET "D-AIAB"
             30 6 (Finite 19000) (Finite 24)]
          Globals.fresh).2 = 0 + 1
  /\ Globals.cargo_total_created
       (attempt_all Aircraft_init
          [CargoArgs "B747F" (Finite 396000) (Finite 180000) JET "D-CARG"
             (Finite 700) (Finite 130000) (Finite 183000) (Finite (85 # 100));
           PassengerArgs "A320neo" (Finite 43000) (Finite 79000) JET "D-AIAB"
             30 6 (Finite 19000) (Finite 24)]
          Globals.fresh).2 = 0 + 1.
Proof.
  destruct (aircraft_attempts_consume_ids
              [CargoArgs "B747F" (Finite 396000) (Finite 180000) JET "D-CARG"
                 (Finite 700) (Finite 130000) (Finite 183000) (Finite (85 # 100));
               PassengerArgs "A320neo" (Finite 43000) (Finite 79000) JET "D-AIAB"
                 30 6 (Finite 19000) (Finite 24)]
              Globals.fresh)
    as (_ & _ & Hpass & Hcargo & _ & _ & _ & _ & Hnth).
  split; [|split; [exact Hpass | exact Hcargo]].
  exact (Hnth 1%nat
           (PassengerArgs "A320neo" (Finite 43000) (Finite 79000) JET "D-AIAB"
              30 6 (Finite 19000) (Finite 24)) eq_refl).
Defined.

(** ** Airport: references that name no resource of the airport *)

(** X21. The searches in [release_gate] and [depart] have no branch for
    a reference that matches nothing.  When the flight's gate reference
    is the id of no gate of the airport, [release_gate] returns and
    leaves everything, the reference included, as it was; when the
    runway reference of a [READY] or [TAXI] flight without gate
    reference is the id of no runway of the airport, [depart] returns
    and sets the flight [AIRBORNE], releases no runway and leaves the
    runway reference in place. *)
Theorem unmatched_references_stay
    (a : Airport.t) (flight_id : Z) (i : nat) (fl : Flight.t) (ref : Z) :
  the_flight a flight_id i fl ->
  (Flight.gate_id fl = Some ref ->
   Forall (fun g => Gate.id g <> ref) (Airport.gates a) ->
   Airport.release_gate flight_id a = (Ok tt, a))
  /\ (Flight.status fl = READY \/ Flight.status fl = TAXI ->
      Flight.runway_id fl = Some ref ->
      Forall (fun r => Runway.id r <> ref) (Airport.runways a) ->
      Flight.gate_id fl = None ->
      Airport.depart flight_id a =
        (Ok tt,
         Airport.with_flights
           (<[i := Flight.with_status AIRBORNE fl]> (Airport.flights a)) a)
      /\ Flight.runway_id (Flight.with_status AIRBORNE fl) = Some ref).
Proof.
  intros Hfl. split.
  - intros Hgid Hnone. rewrite (release_gate_eq _ _ _ _ Hfl), Hgid.
    assert (Hfind : list_find (fun g => Some (Gate.id g) = Some ref)
                      (Airport.gates a) = None).
    { apply list_find_None. eapply Forall_impl; [exact Hnone|].
      intros g Hg [= Heq]. done. }
    by rewrite Hfind.
  - intros Hst Hrid Hnone Hgid. split; [|done].
    assert (Hfind : list_find (fun r => Some (Runway.id r) = Flight.runway_id fl)
                      (Airport.runways a) = None).
    { apply list_find_None. eapply Forall_impl; [exact Hnone|].
      intros r Hr. rewrite Hrid. intros [= Heq]. done. }
    assert (Ha3 : after_runway_release a i fl =
                  Airport.with_flights
                    (<[i := Flight.with_status AIRBORNE fl]> (Airport.flights a)) a).
    { unfold after_runway_release. by rewrite Hfind. }
    assert (Hfl3 : the_flight (after_runway_release a i fl) flight_id i
                     (Flight.with_status AIRBORNE fl)).
    { eapply the_flight_insert; [exact Hfl|apply Hfl|by rewrite Ha3]. }
    rewrite (depart_eq _ _ _ _ Hfl), Hrid.
    assert (Hin : Flight.status_in (Flight.status fl) [READY; TAXI] = true).
    { unfold Flight.status_in. by destruct Hst as [-> | ->]. }
    rewrite Hin. simpl. rewrite (release_gate_eq _ _ _ _ Hfl3).
    change (Flight.gate_id (Flight.with_status AIRBORNE fl))
      with (Flight.gate_id fl).
    by rewrite Hgid, Ha3.
Qed.

Lemma unmatched_references_stay_witness :
  Airport.release_gate 1
    (Airport.with_flights [Flight.with_gate_id (Some 9) demo_f1] build_demo_airport)
  = (Ok tt,
     Airport.with_flights [Flight.with_gate_id (Some 9) demo_f1] build_demo_airport).
Proof.
  assert (Hfl : the_flight
            (Airport.with_flights [Flight.with_gate_id (Some 9) demo_f1]
               build_demo_airport)
            1 0 (Flight.with_gate_id (Some 9) demo_f1)).
  { split; [reflexivity|]. split; [reflexivity|]. intros j y _ Hj. lia. }
  apply (proj1 (unmatched_references_stay _ 1 0 _ 9 Hfl)); [reflexivity|].
  repeat constructor; discriminate.
Defined.
